(** * elastic-search-server/index.js: subscriptions, fan-out and the notification log

    A shallow embedding of the notification core of [index.js]: the
    process-resident [userSubscriptions] object, the Socket.io handlers
    ([register], [subscribeToTopic], [unsubscribeFromTopic], [disconnect]),
    [createNotification], and the routes POST /posts,
    GET /notifications/:username, POST /notifications/:username/clear,
    POST /subscribe and POST /unsubscribe.  The remaining routes read or
    write the post index only and mention neither [userSubscriptions], the
    sockets nor the notification index.

    Conventions of the model.
    - Request and event payloads are the JavaScript values [undefined] and
      strings ([jsval]); truthiness, template-literal conversion and
      SameValueZero are written out for these two shapes.  The other JSON
      values a client can send (numbers, arrays, objects) are outside the
      model: every statement is about usernames and topics that are strings
      or missing.
    - [userSubscriptions] is a plain object: own properties in creation
      order, looked up through [Object.prototype], enumerated by [for...in]
      with array-index keys first.  A [Set] keeps insertion order.
    - The Elasticsearch client is an external collaborator.  An index is the
      list of its documents in arrival order; [refresh: true] makes a write
      visible to the next query.  Whether a call succeeds is an input of the
      handler ([es_outcome]).  The notification routes name the index
      'notifications_index', for which [index.js] provisions no mapping (the
      keyword mapping of lines 80-99 goes to 'notifications_index2'), so how
      the engine has indexed [username] is not fixed by the source: the
      terms it files a username under are an input of each query
      ([analyzer]).  A search that names no [size] returns the first ten
      hits.
    - A handler runs from its first statement to its response without another
      handler in between.
    - [console.log] and [console.error] have no effect on the state; with
      payloads that are strings or missing their template literals cannot
      throw. *)

From Stdlib Require Import List String Ascii ZArith NArith Bool.
From Stdlib Require Import Permutation DecimalString.
Import ListNotations.
Open Scope string_scope.
Open Scope list_scope.

(** ** JavaScript values, Sets and objects *)

Module JS.

Inductive jsval : Type :=
| JUndefined
| JString (s : string).

(** ToBoolean: [undefined] and the empty string are falsy. *)
Definition truthy (v : jsval) : bool :=
  match v with
  | JUndefined => false
  | JString s => negb (String.eqb s "")
  end.

(** ToString, as used by template literals and by property keys. *)
Definition to_string (v : jsval) : string :=
  match v with
  | JUndefined => "undefined"
  | JString s => s
  end.

(** SameValueZero, the equality of [Set]. *)
Definition same_value_zero (a b : jsval) : bool :=
  match a, b with
  | JUndefined, JUndefined => true
  | JString x, JString y => String.eqb x y
  | _, _ => false
  end.

(** A [Set]: its elements in insertion order, without repetition. *)
Definition jsset : Type := list jsval.

Definition set_has (s : jsset) (v : jsval) : bool :=
  existsb (same_value_zero v) s.

Definition set_add (s : jsset) (v : jsval) : jsset :=
  if set_has s v then s else s ++ [v].

Definition set_delete (s : jsset) (v : jsval) : jsset :=
  filter (fun x => negb (same_value_zero v x)) s.

(** An object whose own properties hold Sets: the own properties in creation
    order. *)
Definition object : Type := list (string * jsset).

Fixpoint own_get (o : object) (k : string) : option jsset :=
  match o with
  | [] => None
  | (k', s) :: r => if String.eqb k' k then Some s else own_get r k
  end.

(** [o[k] = s]: an existing own property keeps its place, a new one goes
    last. *)
Fixpoint own_put (o : object) (k : string) (s : jsset) : object :=
  match o with
  | [] => [(k, s)]
  | (k', s') :: r =>
      if String.eqb k' k then (k', s) :: r else (k', s') :: own_put r k s
  end.

(** The property names every object literal inherits from
    [Object.prototype]; all of them hold a truthy value that is not a Set. *)
Definition object_prototype_names : list string :=
  [ "constructor"; "__defineGetter__"; "__defineSetter__"; "hasOwnProperty";
    "__lookupGetter__"; "__lookupSetter__"; "isPrototypeOf";
    "propertyIsEnumerable"; "toString"; "valueOf"; "__proto__";
    "toLocaleString" ].

Definition inherited (k : string) : bool :=
  existsb (String.eqb k) object_prototype_names.

(** The result of reading [o[k]]. *)
Inductive prop_value : Type :=
| PUndefined
| PSet (s : jsset)
| PInherited.

Definition get_prop (o : object) (k : string) : prop_value :=
  match own_get o k with
  | Some s => PSet s
  | None => if inherited k then PInherited else PUndefined
  end.

Definition prop_truthy (p : prop_value) : bool :=
  match p with
  | PUndefined => false
  | PSet _ => true
  | PInherited => true
  end.

(** Array-index keys: the canonical decimal strings of 0 .. 2^32 - 2. *)
Definition digit_of (c : ascii) : option N :=
  let n := N_of_ascii c in
  if ((48 <=? n) && (n <=? 57))%N then Some (n - 48)%N else None.

Fixpoint parse_digits (s : string) (acc : N) : option N :=
  match s with
  | EmptyString => Some acc
  | String c r =>
      match digit_of c with
      | Some d => parse_digits r (acc * 10 + d)%N
      | None => None
      end
  end.

Definition array_index (s : string) : option N :=
  match s with
  | EmptyString => None
  | String c r =>
      if Ascii.eqb c "0"%char && negb (String.eqb r "") then None
      else match parse_digits s 0 with
           | Some n => if (n <? 4294967295)%N then Some n else None
           | None => None
           end
  end.

Definition is_index (k : string) : bool :=
  match array_index k with Some _ => true | None => false end.

Fixpoint index_keys (ks : list string) : list (N * string) :=
  match ks with
  | [] => []
  | k :: r =>
      match array_index k with
      | Some n => (n, k) :: index_keys r
      | None => index_keys r
      end
  end.

Fixpoint insert_index (x : N * string) (l : list (N * string)) :
  list (N * string) :=
  match l with
  | [] => [x]
  | y :: r => if (fst x <=? fst y)%N then x :: l else y :: insert_index x r
  end.

Definition sort_index (l : list (N * string)) : list (N * string) :=
  fold_right insert_index [] l.

(** The keys a [for (const k in o)] loop visits: array indices in ascending
    order, then the other own keys in creation order ([Object.prototype] has
    no enumerable property). *)
Definition for_in_keys (o : object) : list string :=
  let ks := map fst o in
  map snd (sort_index (index_keys ks))
    ++ filter (fun k => negb (is_index k)) ks.

End JS.

(** ** The documents and the two indices *)

Module Post.
Record t : Type := mk
  { id : JS.jsval;
    title : JS.jsval;
    topic : JS.jsval;
    description : JS.jsval;
    author : JS.jsval;
    dateCreated : JS.jsval;
    image : option string }.
End Post.

(** The object built at lines 191-196 and emitted as [newPost]. *)
Module Notification.
Record t : Type := mk
  { message : string;
    timestamp : Z;
    postId : JS.jsval;
    topic : JS.jsval }.
End Notification.

(** A document of the notification index:
    [{ username, ...notification, read: false }]. *)
Module Doc.
Record t : Type := mk
  { username : string;
    message : string;
    timestamp : Z;
    postId : JS.jsval;
    topic : JS.jsval;
    read : bool }.
End Doc.

Module Elastic.
Import JS.

(** How a call to the client ends: it resolves, or it rejects with an error
    carrying [error.message]. *)
Inductive es_outcome : Type :=
| EsOk
| EsFail (message : string).

(** [client.index({ index: 'es_index7', id: post.id, document: post })]: a
    document with the same id is replaced where it stands; without an id the
    engine files the document under a fresh one. *)
Fixpoint index_post (idx : list Post.t) (p : Post.t) : list Post.t :=
  match idx with
  | [] => [p]
  | q :: r =>
      match Post.id p, Post.id q with
      | JString a, JString b =>
          if String.eqb a b then p :: r else q :: index_post r p
      | _, _ => q :: index_post r p
      end
  end.

(** The documents whose [username] field is [u]. *)
Definition filed_under (u : string) (d : Doc.t) : bool :=
  String.eqb (Doc.username d) u.

(** The terms under which the engine has indexed a value of the [username]
    field of 'notifications_index': the value itself for a keyword field,
    its lower-cased words for a text field under the standard analyzer. *)
Definition analyzer : Type := string -> list string.

(** [term: { username }]: the documents that have the term among the terms
    of their [username]; the term itself is not analyzed. *)
Definition term_username (az : analyzer) (u : string) (d : Doc.t) : bool :=
  existsb (String.eqb u) (az (Doc.username d)).

(** The number of hits of a search that names no [size]. *)
Definition default_size : nat := 10.

(** [sort: [{ timestamp: { order: 'desc' } }]]; the order among equal
    timestamps is the engine's, taken here to be the order of arrival. *)
Fixpoint insert_desc (d : Doc.t) (l : list Doc.t) : list Doc.t :=
  match l with
  | [] => [d]
  | x :: r =>
      if (Doc.timestamp x <=? Doc.timestamp d)%Z then d :: l
      else x :: insert_desc d r
  end.

Definition sort_desc (l : list Doc.t) : list Doc.t :=
  fold_right insert_desc [] l.

(** The hits of the query of GET /notifications/:username. *)
Definition search_username (az : analyzer) (idx : list Doc.t) (u : string) :
  list Doc.t :=
  firstn default_size (sort_desc (filter (term_username az u) idx)).

(** [client.deleteByQuery] with the same term query: every document the
    query matches goes. *)
Definition delete_by_username (az : analyzer) (idx : list Doc.t) (u : string) :
  list Doc.t :=
  filter (fun d => negb (term_username az u d)) idx.

End Elastic.

(** ** The server: sockets, registry and routes *)

Module Socket.
(** A connected socket: its id, [socket.username] (undefined until
    [register]) and the rooms it has joined. *)
Record t : Type := mk
  { id : string;
    username : JS.jsval;
    rooms : list JS.jsval }.
End Socket.

Module Server.
Import JS Elastic.

Definition port : string := "5000".

Record State : Type := mkState
  { userSubscriptions : object;
    sockets : list Socket.t;
    notifications_index : list Doc.t;
    es_index7 : list Post.t }.

Definition initial : State :=
  {| userSubscriptions := [];
     sockets := [];
     notifications_index := [];
     es_index7 := [] |}.

(** What a handler sends back. *)
Inductive json : Type :=
| JsonError (error : string)
| JsonMessage (message : string)
| JsonNotifications (notifications : list Doc.t)
| JsonIndexResponse
| ErrorPage (error : string).

Record Response : Type := mkResponse
  { status : Z;
    body : json }.

(** [io.to(room).emit(event, payload)]. *)
Record Emit : Type := mkEmit
  { room : jsval;
    event_name : string;
    payload : Notification.t }.

(** How a handler ends: normally, or with an exception nobody caught. *)
Inductive completion : Type :=
| Normal
| Uncaught (error : string).

Record Output : Type := mkOutput
  { response : option Response;
    emitted : list Emit;
    ended : completion }.

Definition respond (code : Z) (b : json) : Output :=
  {| response := Some {| status := code; body := b |};
     emitted := [];
     ended := Normal |}.

Definition silent : Output :=
  {| response := None; emitted := []; ended := Normal |}.

Definition uncaught (e : string) : Output :=
  {| response := None; emitted := []; ended := Uncaught e |}.

Definition with_subscriptions (st : State) (o : object) : State :=
  {| userSubscriptions := o;
     sockets := sockets st;
     notifications_index := notifications_index st;
     es_index7 := es_index7 st |}.

Definition with_sockets (st : State) (l : list Socket.t) : State :=
  {| userSubscriptions := userSubscriptions st;
     sockets := l;
     notifications_index := notifications_index st;
     es_index7 := es_index7 st |}.

Definition with_notifications (st : State) (l : list Doc.t) : State :=
  {| userSubscriptions := userSubscriptions st;
     sockets := sockets st;
     notifications_index := l;
     es_index7 := es_index7 st |}.

(** *** Sockets and rooms *)

Fixpoint find_socket (l : list Socket.t) (sid : string) : option Socket.t :=
  match l with
  | [] => None
  | s :: r => if String.eqb (Socket.id s) sid then Some s else find_socket r sid
  end.

Fixpoint put_socket (l : list Socket.t) (s : Socket.t) : list Socket.t :=
  match l with
  | [] => []
  | x :: r =>
      if String.eqb (Socket.id x) (Socket.id s) then s :: r
      else x :: put_socket r s
  end.

Definition drop_socket (l : list Socket.t) (sid : string) : list Socket.t :=
  filter (fun s => negb (String.eqb (Socket.id s) sid)) l.

(** [socket.join(r)] and [socket.leave(r)]; the rooms of a socket are a Set. *)
Definition join (s : Socket.t) (r : jsval) : Socket.t :=
  {| Socket.id := Socket.id s;
     Socket.username := Socket.username s;
     Socket.rooms := set_add (Socket.rooms s) r |}.

Definition leave (s : Socket.t) (r : jsval) : Socket.t :=
  {| Socket.id := Socket.id s;
     Socket.username := Socket.username s;
     Socket.rooms := set_delete (Socket.rooms s) r |}.

(** The sockets an emit to room [r] reaches. *)
Definition receivers (st : State) (r : jsval) : list string :=
  map Socket.id (filter (fun s => set_has (Socket.rooms s) r) (sockets st)).

(** [io.on('connection')]: a new socket sits in the room of its own id. *)
Definition connection (st : State) (sid : string) : State * Output :=
  match find_socket (sockets st) sid with
  | Some _ => (st, silent)
  | None =>
      (with_sockets st
         (sockets st ++
            [ {| Socket.id := sid;
                 Socket.username := JUndefined;
                 Socket.rooms := [JString sid] |} ]),
       silent)
  end.

(** [socket.on('register')], lines 127-131. *)
Definition register (st : State) (s : Socket.t) (username : jsval) :
  State * Output :=
  let s1 := {| Socket.id := Socket.id s;
               Socket.username := username;
               Socket.rooms := Socket.rooms s |} in
  (with_sockets st (put_socket (sockets st) (join s1 username)), silent).

(** [socket.on('subscribeToTopic')], lines 133-142. *)
Definition subscribeToTopic (st : State) (s : Socket.t) (topic : jsval) :
  State * Output :=
  let st1 := with_sockets st (put_socket (sockets st) (join s topic)) in
  if truthy (Socket.username s) then
    let k := to_string (Socket.username s) in
    let subs := userSubscriptions st1 in
    let subs1 :=
      if prop_truthy (get_prop subs k) then subs else own_put subs k [] in
    match get_prop subs1 k with
    | PSet set => (with_subscriptions st1 (own_put subs1 k (set_add set topic)),
                   silent)
    | PInherited =>
        (with_subscriptions st1 subs1,
         uncaught "userSubscriptions[socket.username].add is not a function")
    | PUndefined =>
        (with_subscriptions st1 subs1,
         uncaught "Cannot read properties of undefined (reading 'add')")
    end
  else (st1, silent).

(** [socket.on('unsubscribeFromTopic')], lines 144-150. *)
Definition unsubscribeFromTopic (st : State) (s : Socket.t) (topic : jsval) :
  State * Output :=
  let st1 := with_sockets st (put_socket (sockets st) (leave s topic)) in
  let k := to_string (Socket.username s) in
  if truthy (Socket.username s) && prop_truthy (get_prop (userSubscriptions st1) k)
  then
    match get_prop (userSubscriptions st1) k with
    | PSet set =>
        (with_subscriptions st1
           (own_put (userSubscriptions st1) k (set_delete set topic)),
         silent)
    | _ =>
        (st1,
         uncaught "userSubscriptions[socket.username].delete is not a function")
    end
  else (st1, silent).

(** [socket.on('disconnect')]: the handler only logs; Socket.io itself takes
    the socket out of its rooms. *)
Definition disconnect (st : State) (s : Socket.t) : State * Output :=
  (with_sockets st (drop_socket (sockets st) (Socket.id s)), silent).

(** *** Publishing *)

(** The fields of [req.body] of POST /posts and the [originalname] of the
    uploaded file, if there is one. *)
Record PostsRequest : Type := mkPostsRequest
  { id : jsval;
    title : jsval;
    topic : jsval;
    description : jsval;
    author : jsval;
    dateCreated : jsval;
    file : option string }.

(** What the surroundings decide during one POST /posts: what [Date.now()]
    reads when multer names the upload, whether the post is stored, what
    [new Date()] reads, and whether the notification of each user is
    stored. *)
Record PublishEnv : Type := mkPublishEnv
  { upload_time : Z;
    post_stored : es_outcome;
    clock : Z;
    notification_stored : string -> es_outcome }.

Definition document (username : string) (n : Notification.t) : Doc.t :=
  {| Doc.username := username;
     Doc.message := Notification.message n;
     Doc.timestamp := Notification.timestamp n;
     Doc.postId := Notification.postId n;
     Doc.topic := Notification.topic n;
     Doc.read := false |}.

(** [createNotification], lines 157-172: a rejected write is logged and
    swallowed. *)
Definition createNotification (idx : list Doc.t) (username : string)
  (n : Notification.t) (o : es_outcome) : list Doc.t :=
  match o with
  | EsOk => idx ++ [document username n]
  | EsFail _ => idx
  end.

Definition newPost (username : string) (n : Notification.t) : Emit :=
  {| room := JString username; event_name := "newPost"; payload := n |}.

(** The loop of lines 198-204 over the keys still to visit. *)
Fixpoint fan_out (subs : object) (keys : list string) (t : jsval)
  (n : Notification.t) (stored : string -> es_outcome)
  (idx : list Doc.t) (out : list Emit) :
  list Doc.t * list Emit * completion :=
  match keys with
  | [] => (idx, out, Normal)
  | username :: rest =>
      match get_prop subs username with
      | PSet set =>
          if set_has set t then
            fan_out subs rest t n stored
              (createNotification idx username n (stored username))
              (out ++ [newPost username n])
          else fan_out subs rest t n stored idx out
      | PInherited =>
          (idx, out, Uncaught "userSubscriptions[username].has is not a function")
      | PUndefined =>
          (idx, out, Uncaught "Cannot read properties of undefined (reading 'has')")
      end
  end.

(** [filename], lines 39-41: [Date.now() + '-' + file.originalname]. *)
Definition filename (now : Z) (originalname : string) : string :=
  (NilZero.string_of_int (Z.to_int now) ++ "-" ++ originalname)%string.

Definition imageUrl (f : option string) : option string :=
  match f with
  | Some name =>
      Some ("http://localhost:" ++ port ++ "/uploads/" ++ name)%string
  | None => None
  end.

Definition post_of (req : PostsRequest) (env : PublishEnv) : Post.t :=
  {| Post.id := id req;
     Post.title := title req;
     Post.topic := topic req;
     Post.description := description req;
     Post.author := author req;
     Post.dateCreated := dateCreated req;
     Post.image :=
       imageUrl (option_map (filename (upload_time env)) (file req)) |}.

Definition message_of (req : PostsRequest) : string :=
  ("New post in " ++ to_string (topic req) ++ " posted by "
     ++ to_string (author req) ++ ": " ++ to_string (title req))%string.

Definition notification_of (req : PostsRequest) (now : Z) : Notification.t :=
  {| Notification.message := message_of req;
     Notification.timestamp := now;
     Notification.postId := id req;
     Notification.topic := topic req |}.

(** [app.post('/posts')], lines 174-211. *)
Definition post_posts (st : State) (req : PostsRequest) (env : PublishEnv) :
  State * Output :=
  match post_stored env with
  | EsFail msg => (st, respond 500 (JsonError msg))
  | EsOk =>
      let posts := index_post (es_index7 st) (post_of req env) in
      let notification := notification_of req (clock env) in
      let '(idx, out, c) :=
        fan_out (userSubscriptions st) (for_in_keys (userSubscriptions st))
          (topic req) notification (notification_stored env)
          (notifications_index st) [] in
      let st' :=
        {| userSubscriptions := userSubscriptions st;
           sockets := sockets st;
           notifications_index := idx;
           es_index7 := posts |} in
      match c with
      | Normal =>
          (st', {| response := Some {| status := 201; body := JsonIndexResponse |};
                   emitted := out;
                   ended := Normal |})
      | Uncaught msg =>
          (st', {| response := Some {| status := 500; body := JsonError msg |};
                   emitted := out;
                   ended := Normal |})
      end
  end.

(** *** The notification routes *)

(** [app.get('/notifications/:username')], lines 213-232. *)
Definition get_notifications (st : State) (username : string)
  (az : analyzer) (o : es_outcome) : State * Output :=
  match o with
  | EsOk =>
      (st, respond 200
             (JsonNotifications
                (search_username az (notifications_index st) username)))
  | EsFail msg => (st, respond 500 (JsonError msg))
  end.

(** [app.post('/notifications/:username/clear')], lines 234-251. *)
Definition clear_notifications (st : State) (username : string)
  (az : analyzer) (o : es_outcome) : State * Output :=
  match o with
  | EsOk =>
      (with_notifications st
         (delete_by_username az (notifications_index st) username),
       respond 200
         (JsonMessage ("Cleared notifications for " ++ username)%string))
  | EsFail msg => (st, respond 500 (JsonError msg))
  end.

(** *** The subscription routes *)

(** [app.post('/subscribe')], lines 340-346. *)
Definition post_subscribe (st : State) (username t : jsval) : State * Output :=
  if negb (truthy username) || negb (truthy t) then
    (st, respond 400 (JsonError "username and topic are required"))
  else
    (st, respond 200
           (JsonMessage
              ("Subscribed " ++ to_string username ++ " to " ++ to_string t)%string)).

(** [app.post('/unsubscribe')], lines 349-360.  An exception thrown by the
    handler is answered by the framework with status 500. *)
Definition post_unsubscribe (st : State) (username t : jsval) :
  State * Output :=
  if negb (truthy username) || negb (truthy t) then
    (st, respond 400 (JsonError "username and topic are required"))
  else
    let k := to_string username in
    let done :=
      respond 200
        (JsonMessage
           ("Unsubscribed " ++ to_string username ++ " from " ++ to_string t)%string) in
    match get_prop (userSubscriptions st) k with
    | PUndefined => (st, done)
    | PSet set =>
        (with_subscriptions st
           (own_put (userSubscriptions st) k (set_delete set t)),
         done)
    | PInherited =>
        (st, respond 500
               (ErrorPage "userSubscriptions[username].delete is not a function"))
    end.

(** *** The server as a transition system *)

Inductive event : Type :=
| Connection (sid : string)
| Register (sid : string) (username : jsval)
| SubscribeToTopic (sid : string) (t : jsval)
| UnsubscribeFromTopic (sid : string) (t : jsval)
| Disconnect (sid : string)
| PostPosts (req : PostsRequest) (env : PublishEnv)
| GetNotifications (username : string) (az : analyzer) (o : es_outcome)
| ClearNotifications (username : string) (az : analyzer) (o : es_outcome)
| PostSubscribe (username t : jsval)
| PostUnsubscribe (username t : jsval).

(** An event of a socket reaches the handlers of that socket; only a
    connected socket has events. *)
Definition on_socket (st : State) (sid : string)
  (h : State -> Socket.t -> State * Output) : State * Output :=
  match find_socket (sockets st) sid with
  | Some s => h st s
  | None => (st, silent)
  end.

Definition step (st : State) (e : event) : State * Output :=
  match e with
  | Connection sid => connection st sid
  | Register sid u => on_socket st sid (fun st s => register st s u)
  | SubscribeToTopic sid t => on_socket st sid (fun st s => subscribeToTopic st s t)
  | UnsubscribeFromTopic sid t =>
      on_socket st sid (fun st s => unsubscribeFromTopic st s t)
  | Disconnect sid => on_socket st sid disconnect
  | PostPosts req env => post_posts st req env
  | GetNotifications u az o => get_notifications st u az o
  | ClearNotifications u az o => clear_notifications st u az o
  | PostSubscribe u t => post_subscribe st u t
  | PostUnsubscribe u t => post_unsubscribe st u t
  end.

(** A run of the process: an exception nobody caught ends it, and the events
    after it are never handled. *)
Fixpoint run (st : State) (evs : list event) : State :=
  match evs with
  | [] => st
  | e :: rest =>
      let '(st', out) := step st e in
      match ended out with
      | Normal => run st' rest
      | Uncaught _ => st'
      end
  end.

(** *** Views used by the statements *)

(** [userSubscriptions[u]] exists and has [t]. *)
Definition subscribed (o : object) (u : string) (t : jsval) : bool :=
  match own_get o u with
  | Some set => set_has set t
  | None => false
  end.

(** The users the loop of POST /posts notifies, in the order it meets them. *)
Definition subscribersOf (o : object) (t : jsval) : list string :=
  filter (fun u => subscribed o u t) (for_in_keys o).

(** The documents of one user in the index, in arrival order. *)
Definition log_of (st : State) (u : string) : list Doc.t :=
  filter (filed_under u) (notifications_index st).

(** What GET /notifications/:username lists when the query succeeds. *)
Definition listFor (az : analyzer) (st : State) (u : string) : list Doc.t :=
  search_username az (notifications_index st) u.

Definition stored_ok (stored : string -> es_outcome) (u : string) : bool :=
  match stored u with EsOk => true | EsFail _ => false end.

End Server.

(** ** Relating two states, and the data of the worked scenarios *)

Module Related.
Import JS Elastic Server.

(** Which user a connected socket is bound to. *)
Definition binding (s : Socket.t) : string * jsval :=
  (Socket.id s, Socket.username s).

Definition bindings (st : State) : list (string * jsval) :=
  map binding (sockets st).

(** Two states that differ at most in the rooms their sockets have joined. *)
Definition same_but_rooms (a b : State) : Prop :=
  userSubscriptions a = userSubscriptions b
  /\ bindings a = bindings b
  /\ notifications_index a = notifications_index b
  /\ es_index7 a = es_index7 b.

End Related.

Module Scenario.
Import JS Elastic Server.

Definition alice : jsval := JString "alice".
Definition sports : jsval := JString "sports".

Definition p1 : PostsRequest :=
  {| id := JString "p1";
     title := JString "Game Day";
     topic := sports;
     description := JString "Kick-off at noon";
     author := JString "bob";
     dateCreated := JString "2025-03-01";
     file := None |}.

Definition p2 : PostsRequest :=
  {| id := JString "p2";
     title := JString "Rematch";
     topic := sports;
     description := JString "Second leg";
     author := JString "bob";
     dateCreated := JString "2025-03-08";
     file := Some "pitch.png" |}.

(** Every call to the engine succeeds. *)
Definition all_stored (now : Z) : PublishEnv :=
  {| upload_time := now;
     post_stored := EsOk;
     clock := now;
     notification_stored := fun _ => EsOk |}.

(** The post itself is refused. *)
Definition post_refused (now : Z) : PublishEnv :=
  {| upload_time := now;
     post_stored := EsFail "connect ECONNREFUSED 127.0.0.1:9200";
     clock := now;
     notification_stored := fun _ => EsOk |}.

(** The post is stored; the notification of alice is refused. *)
Definition alice_refused (now : Z) : PublishEnv :=
  {| upload_time := now;
     post_stored := EsOk;
     clock := now;
     notification_stored :=
       fun u => if String.eqb u "alice" then EsFail "es_rejected_execution_exception"
                else EsOk |}.

(** alice, carol and the user "7" are connected, registered and subscribed
    to sports over their sockets; dave is connected and has not registered. *)
Definition three_subscribers : State :=
  run initial
    [ Connection "s1"; Register "s1" alice; SubscribeToTopic "s1" sports;
      Connection "s2"; Register "s2" (JString "carol");
      SubscribeToTopic "s2" sports;
      Connection "s3"; Register "s3" (JString "7");
      SubscribeToTopic "s3" sports;
      Connection "s4" ].

(** alice is connected and registered and has subscribed to nothing. *)
Definition alice_registered : State :=
  run initial [ Connection "s1"; Register "s1" alice ].

(** The socket of dave in [three_subscribers]. *)
Definition dave_socket : Socket.t :=
  {| Socket.id := "s4";
     Socket.username := JUndefined;
     Socket.rooms := [JString "s4"] |}.

(** [three_subscribers] after p1 was published at time 1000. *)
Definition after_p1 : State :=
  run three_subscribers [ PostPosts p1 (all_stored 1000) ].

(** The terms of a keyword field, the mapping lines 86-97 give to
    'notifications_index2': the value itself. *)
Definition keyword : analyzer := fun s => [s].

(** The terms of a text field for a name written with ASCII letters, digits
    and spaces, as the standard analyzer of a dynamically mapped string
    field gives them: its words, in lower case. *)
Definition lower (c : ascii) : ascii :=
  let n := nat_of_ascii c in
  if ((65 <=? n) && (n <=? 90))%nat then ascii_of_nat (n + 32) else c.

Fixpoint words (s : string) (word : string) : list string :=
  match s with
  | EmptyString => if String.eqb word "" then [] else [word]
  | String c r =>
      if Ascii.eqb c " "%char then
        (if String.eqb word "" then [] else [word]) ++ words r ""
      else words r (word ++ String (lower c) "")%string
  end.

Definition standard : analyzer := fun s => words s "".

End Scenario.

(** ** The subscription listing, reachable states and further scenarios *)

Module Listing.
Import JS Elastic Server.

(** The [length] of what [Object.prototype] holds under each of its names:
    the arity of the function, and nothing for the object under
    [__proto__]. *)
Definition object_prototype_lengths : list (string * nat) :=
  [ ("constructor", 1); ("__defineGetter__", 2); ("__defineSetter__", 2);
    ("hasOwnProperty", 1); ("__lookupGetter__", 1); ("__lookupSetter__", 1);
    ("isPrototypeOf", 1); ("propertyIsEnumerable", 1); ("toString", 0);
    ("valueOf", 0); ("__proto__", 0); ("toLocaleString", 0) ]%nat.

Fixpoint inherited_length (tbl : list (string * nat)) (k : string) : nat :=
  match tbl with
  | [] => 0
  | (k', n) :: r => if String.eqb k' k then n else inherited_length r k
  end.

(** [Array.from(v)] for what [userSubscriptions[username]] can hold: the
    elements of a Set in insertion order; for a function, as many
    [undefined] as its [length]. *)
Definition array_from (username : string) (v : prop_value) : list jsval :=
  match v with
  | PUndefined => []
  | PSet set => set
  | PInherited =>
      repeat JUndefined (inherited_length object_prototype_lengths username)
  end.

(** [app.get('/subscriptions/:username')], lines 363-368: the array sent as
    [{ topics }] with status 200. *)
Definition get_subscriptions (st : State) (username : string) : list jsval :=
  let topicsSet := get_prop (userSubscriptions st) username in
  if prop_truthy topicsSet then array_from username topicsSet else [].

(** The own keys of [userSubscriptions]. *)
Definition users (st : State) : list string :=
  map fst (userSubscriptions st).

(** What every registry the handlers build satisfies: distinct keys, none
    empty, none a name of [Object.prototype], and Sets without repetition. *)
Definition registry_ok (o : object) : Prop :=
  NoDup (map fst o)
  /\ forall k set, In (k, set) o ->
       k <> "" /\ inherited k = false /\ NoDup set.

(** What one event can do to the registry. *)
Inductive registry_change (o : object) : object -> Prop :=
| Unchanged : registry_change o o
| Added (k : string) (set : jsset) (t : jsval) :
    own_get o k = Some set ->
    registry_change o (own_put o k (set_add set t))
| Deleted (k : string) (set : jsset) (t : jsval) :
    own_get o k = Some set ->
    registry_change o (own_put o k (set_delete set t))
| Created (k : string) (t : jsval) :
    own_get o k = None -> k <> "" -> inherited k = false ->
    registry_change o (own_put o k [t]).

(** Every document is unread and filed under a key of the registry. *)
Definition index_ok (st : State) : Prop :=
  forall d, In d (notifications_index st) ->
    Doc.read d = false /\ In (Doc.username d) (users st).

End Listing.

Module Cases.
Import JS Elastic Server Scenario Listing.

(** A socket registered under a name of [Object.prototype]. *)
Definition constructor_registered : list event :=
  [ Connection "s9"; Register "s9" (JString "constructor") ].

Definition constructor_socket : Socket.t :=
  {| Socket.id := "s9";
     Socket.username := JString "constructor";
     Socket.rooms := [JString "s9"; JString "constructor"] |}.

(** The events behind [three_subscribers], followed by the publication of
    p1 at time 1000. *)
Definition history : list event :=
  [ Connection "s1"; Register "s1" alice; SubscribeToTopic "s1" sports;
    Connection "s2"; Register "s2" (JString "carol");
    SubscribeToTopic "s2" sports;
    Connection "s3"; Register "s3" (JString "7");
    SubscribeToTopic "s3" sports;
    Connection "s4";
    PostPosts p1 (all_stored 1000) ].

(** One connected socket that has not registered. *)
Definition one_connected : State := run initial [ Connection "s1" ].

Definition fresh_socket : Socket.t :=
  {| Socket.id := "s1";
     Socket.username := JUndefined;
     Socket.rooms := [JString "s1"] |}.

Definition alice_socket : Socket.t :=
  {| Socket.id := "s1";
     Socket.username := alice;
     Socket.rooms := [JString "s1"; alice; sports] |}.

Definition chess_post (name : string) : PostsRequest :=
  {| id := JString name;
     title := JString "Opening of the week";
     topic := JString "chess";
     description := JUndefined;
     author := JString "bob";
     dateCreated := JUndefined;
     file := None |}.

(** A socket registered as "Alice" has subscribed to sports and one
    registered as "bob" to chess; a post on chess was published at time 500,
    so the notification index holds one document, of bob; nobody is
    registered as "alice". *)
Definition capital_alice : State :=
  run initial
    [ Connection "s1"; Register "s1" (JString "Alice");
      SubscribeToTopic "s1" sports;
      Connection "s2"; Register "s2" (JString "bob");
      SubscribeToTopic "s2" (JString "chess");
      PostPosts (chess_post "c0") (all_stored 500) ].

(** "alice" and "Alice" have both subscribed to sports, and p1 was published
    at time 1000. *)
Definition alice_and_Alice : State :=
  run initial
    [ Connection "s1"; Register "s1" alice; SubscribeToTopic "s1" sports;
      Connection "s2"; Register "s2" (JString "Alice");
      SubscribeToTopic "s2" sports;
      PostPosts p1 (all_stored 1000) ].

(** alice has subscribed to sports and to chess, p1 was published on sports
    at time 1000, and alice has then unsubscribed from sports. *)
Definition alice_left_sports : State :=
  run initial
    [ Connection "s1"; Register "s1" alice; SubscribeToTopic "s1" sports;
      SubscribeToTopic "s1" (JString "chess");
      PostPosts p1 (all_stored 1000);
      PostUnsubscribe alice sports ].

(** Ten posts on chess, published one after the other; no clear. *)
Definition ten_on_chess : list event :=
  [ PostPosts (chess_post "c1") (all_stored 2001);
    PostPosts (chess_post "c2") (all_stored 2002);
    PostPosts (chess_post "c3") (all_stored 2003);
    PostPosts (chess_post "c4") (all_stored 2004);
    PostPosts (chess_post "c5") (all_stored 2005);
    PostPosts (chess_post "c6") (all_stored 2006);
    PostPosts (chess_post "c7") (all_stored 2007);
    PostPosts (chess_post "c8") (all_stored 2008);
    PostPosts (chess_post "c9") (all_stored 2009);
    PostPosts (chess_post "c10") (all_stored 2010) ].

End Cases.

(** ** Facts about Sets, objects and [for...in] *)

Module JSFacts.
Import JS.

Lemma same_value_zero_eq (a b : jsval) :
  same_value_zero a b = true <-> a = b.
Proof.
  destruct a as [|x], b as [|y]; simpl; split; intro H;
    try reflexivity; try discriminate.
  - apply String.eqb_eq in H. now subst.
  - inversion H; subst. apply String.eqb_refl.
Qed.

Lemma same_value_zero_refl (a : jsval) : same_value_zero a a = true.
Proof. now apply same_value_zero_eq. Qed.

Lemma same_value_zero_neq (a b : jsval) :
  same_value_zero a b = false <-> a <> b.
Proof.
  split.
  - intros H E. apply same_value_zero_eq in E. congruence.
  - intro H. destruct (same_value_zero a b) eqn:E; [|reflexivity].
    apply same_value_zero_eq in E. contradiction.
Qed.

Lemma set_has_In (s : jsset) (v : jsval) : set_has s v = true <-> In v s.
Proof.
  unfold set_has. rewrite existsb_exists. split.
  - intros [x [Hx E]]. apply same_value_zero_eq in E. now subst.
  - intro H. exists v. split; [assumption | apply same_value_zero_refl].
Qed.

Lemma set_has_add (s : jsset) (v x : jsval) :
  set_has (set_add s v) x = set_has s x || same_value_zero x v.
Proof.
  unfold set_add. destruct (set_has s v) eqn:Hv.
  - destruct (same_value_zero x v) eqn:E.
    + apply same_value_zero_eq in E. subst. rewrite Hv. reflexivity.
    + now rewrite orb_false_r.
  - unfold set_has. rewrite existsb_app. simpl. now rewrite orb_false_r.
Qed.

Lemma set_add_idem (s : jsset) (v : jsval) :
  set_add (set_add s v) v = set_add s v.
Proof.
  unfold set_add at 1. rewrite set_has_add, same_value_zero_refl, orb_true_r.
  reflexivity.
Qed.

Lemma set_has_delete (s : jsset) (v x : jsval) :
  set_has (set_delete s v) x = set_has s x && negb (same_value_zero v x).
Proof.
  unfold set_has, set_delete. induction s as [|y s IH]; simpl.
  - reflexivity.
  - destruct (same_value_zero v y) eqn:Evy; simpl.
    + rewrite IH. destruct (same_value_zero x y) eqn:Exy; simpl.
      * apply same_value_zero_eq in Evy, Exy. subst.
        rewrite same_value_zero_refl. simpl. now rewrite andb_false_r.
      * reflexivity.
    + rewrite IH. destruct (same_value_zero x y) eqn:Exy; simpl.
      * apply same_value_zero_eq in Exy. subst. now rewrite Evy.
      * reflexivity.
Qed.

Lemma set_delete_idem (s : jsset) (v : jsval) :
  set_delete (set_delete s v) v = set_delete s v.
Proof.
  unfold set_delete. induction s as [|y s IH]; simpl.
  - reflexivity.
  - destruct (same_value_zero v y) eqn:E; simpl.
    + exact IH.
    + rewrite E. simpl. now rewrite IH.
Qed.

Lemma own_get_put_same (o : object) (k : string) (s : jsset) :
  own_get (own_put o k s) k = Some s.
Proof.
  induction o as [|[k' s'] o IH]; simpl.
  - now rewrite String.eqb_refl.
  - destruct (String.eqb k' k) eqn:E; simpl; rewrite E; [reflexivity | exact IH].
Qed.

Lemma own_get_put_other (o : object) (k k' : string) (s : jsset) :
  k' <> k -> own_get (own_put o k s) k' = own_get o k'.
Proof.
  intro N. induction o as [|[k0 s0] o IH]; simpl.
  - destruct (String.eqb k k') eqn:E; [|reflexivity].
    apply String.eqb_eq in E. congruence.
  - destruct (String.eqb k0 k) eqn:E; simpl.
    + apply String.eqb_eq in E. subst k0.
      destruct (String.eqb k k') eqn:E'; [|reflexivity].
      apply String.eqb_eq in E'. congruence.
    + destruct (String.eqb k0 k'); [reflexivity | exact IH].
Qed.

Lemma own_put_put (o : object) (k : string) (s s' : jsset) :
  own_put (own_put o k s) k s' = own_put o k s'.
Proof.
  induction o as [|[k0 s0] o IH]; simpl.
  - now rewrite String.eqb_refl.
  - destruct (String.eqb k0 k) eqn:E; simpl; rewrite E; [reflexivity|].
    now rewrite IH.
Qed.

Lemma own_put_get (o : object) (k : string) (s : jsset) :
  own_get o k = Some s -> own_put o k s = o.
Proof.
  induction o as [|[k0 s0] o IH]; simpl; intro H.
  - discriminate.
  - destruct (String.eqb k0 k) eqn:E.
    + now inversion H.
    + now rewrite IH.
Qed.

Lemma own_get_In (o : object) (k : string) :
  In k (map fst o) <-> own_get o k <> None.
Proof.
  induction o as [|[k0 s0] o IH]; simpl.
  - split; [intros [] | intro H; now apply H].
  - destruct (String.eqb k0 k) eqn:E.
    + apply String.eqb_eq in E. subst. split; [discriminate | now left].
    + apply String.eqb_neq in E. rewrite <- IH. split.
      * intros [H|H]; [contradiction | assumption].
      * intro H. now right.
Qed.

Lemma get_prop_own (o : object) (k : string) (s : jsset) :
  own_get o k = Some s -> get_prop o k = PSet s.
Proof. unfold get_prop. now intros ->. Qed.

Lemma get_prop_set (o : object) (k : string) (s : jsset) :
  get_prop o k = PSet s -> own_get o k = Some s.
Proof.
  unfold get_prop. destruct (own_get o k).
  - now intros [= ->].
  - destruct (inherited k); discriminate.
Qed.

Lemma get_prop_not_set (o : object) (k : string) :
  (forall s, get_prop o k <> PSet s) -> own_get o k = None.
Proof.
  unfold get_prop. destruct (own_get o k) as [s|]; [|reflexivity].
  intro H. now destruct (H s).
Qed.

(** The sort of the array-index keys keeps exactly the keys it is given. *)
Lemma insert_index_In (x y : N * string) (l : list (N * string)) :
  In y (insert_index x l) <-> y = x \/ In y l.
Proof.
  induction l as [|z l IH]; simpl.
  - intuition congruence.
  - destruct (fst x <=? fst z)%N; simpl; [intuition congruence|].
    rewrite IH. intuition congruence.
Qed.

Lemma sort_index_In (y : N * string) (l : list (N * string)) :
  In y (sort_index l) <-> In y l.
Proof.
  induction l as [|x l IH]; simpl.
  - reflexivity.
  - rewrite insert_index_In, IH. intuition congruence.
Qed.

Lemma index_keys_In (k : string) (ks : list string) :
  In k (map snd (index_keys ks)) <-> In k ks /\ is_index k = true.
Proof.
  unfold is_index. induction ks as [|k0 ks IH]; simpl.
  - intuition.
  - destruct (array_index k0) eqn:E; simpl; rewrite IH.
    + split.
      * intros [H|[H1 H2]]; [subst; rewrite E|]; intuition.
      * intros [[H|H] H2]; intuition.
    + split.
      * intuition.
      * intros [[H|H] H2]; [subst; rewrite E in H2; discriminate | intuition].
Qed.

Lemma for_in_keys_In (o : object) (k : string) :
  In k (for_in_keys o) <-> In k (map fst o).
Proof.
  unfold for_in_keys. rewrite in_app_iff, filter_In.
  assert (S : In k (map snd (sort_index (index_keys (map fst o))))
              <-> In k (map snd (index_keys (map fst o)))).
  { rewrite !in_map_iff. split; intros [y [E H]]; exists y; split; auto;
      now apply sort_index_In. }
  rewrite S, index_keys_In. destruct (is_index k); simpl; intuition congruence.
Qed.

Lemma for_in_keys_own (o : object) (k : string) :
  In k (for_in_keys o) <-> exists s, own_get o k = Some s.
Proof.
  rewrite for_in_keys_In, own_get_In. destruct (own_get o k) as [s|].
  - split; [intros _; now exists s | discriminate].
  - split; [congruence | intros [s H]; discriminate].
Qed.

End JSFacts.

(** ** Facts about the notification index *)

Module ElasticFacts.
Import JS Elastic.

Lemma filed_under_true (u : string) (d : Doc.t) :
  filed_under u d = true <-> Doc.username d = u.
Proof. unfold filed_under. apply String.eqb_eq. Qed.

Lemma filed_none_added (u : string) (added : list Doc.t) :
  (forall d, In d added -> Doc.username d <> u) ->
  filter (filed_under u) added = [].
Proof.
  induction added as [|d l IH]; simpl; intro H.
  - reflexivity.
  - destruct (filed_under u d) eqn:E.
    + apply filed_under_true in E. exfalso. apply (H d); auto.
    + apply IH. intros x Hx. apply H. now right.
Qed.

(** A term is found among the terms of a name. *)
Lemma term_username_true (az : analyzer) (u : string) (d : Doc.t) :
  term_username az u d = true <-> In u (az (Doc.username d)).
Proof.
  unfold term_username. rewrite existsb_exists. split.
  - intros [x [Hx E]]. apply String.eqb_eq in E. now subst.
  - intro H. exists u. split; [assumption | apply String.eqb_refl].
Qed.

(** On a keyword field the term query finds the documents filed under the
    term. *)
Lemma term_keyword (az : analyzer) (u : string) (d : Doc.t) :
  (forall s, az s = [s]) -> term_username az u d = filed_under u d.
Proof.
  intro K. unfold term_username, filed_under. rewrite K. simpl.
  rewrite orb_false_r. apply String.eqb_sym.
Qed.

Lemma filter_keyword (az : analyzer) (u : string) (idx : list Doc.t) :
  (forall s, az s = [s]) ->
  filter (term_username az u) idx = filter (filed_under u) idx.
Proof.
  intro K. apply filter_ext. intro d. now apply term_keyword.
Qed.

(** After a delete the same query has no hit. *)
Lemma search_after_delete (az : analyzer) (idx : list Doc.t) (u : string) :
  filter (term_username az u) (delete_by_username az idx u) = [].
Proof.
  unfold delete_by_username. induction idx as [|d idx IH]; simpl.
  - reflexivity.
  - destruct (term_username az u d) eqn:E; simpl.
    + exact IH.
    + now rewrite E.
Qed.

Lemma delete_keyword (az : analyzer) (idx : list Doc.t) (u : string) :
  (forall s, az s = [s]) ->
  delete_by_username az idx u = filter (fun d => negb (filed_under u d)) idx.
Proof.
  intro K. unfold delete_by_username. apply filter_ext. intro d.
  now rewrite (term_keyword az u d K).
Qed.

Lemma filed_other_after_delete (idx : list Doc.t) (u v : string) :
  v <> u ->
  filter (filed_under v) (filter (fun d => negb (filed_under u d)) idx)
  = filter (filed_under v) idx.
Proof.
  intro N. induction idx as [|d idx IH]; simpl.
  - reflexivity.
  - destruct (filed_under u d) eqn:Eu; simpl.
    + destruct (filed_under v d) eqn:Ev.
      * apply filed_under_true in Eu, Ev. congruence.
      * exact IH.
    + destruct (filed_under v d); now rewrite IH.
Qed.

(** When the engine finds a name under itself, a delete for the name takes
    every document filed under it. *)
Lemma filed_after_delete (az : analyzer) (idx : list Doc.t) (u : string) :
  In u (az u) ->
  filter (filed_under u) (delete_by_username az idx u) = [].
Proof.
  intro H. unfold delete_by_username. induction idx as [|d idx IH]; simpl.
  - reflexivity.
  - destruct (term_username az u d) eqn:E; simpl; [exact IH|].
    destruct (filed_under u d) eqn:F; [|exact IH].
    apply filed_under_true in F.
    assert (T : term_username az u d = true)
      by (apply term_username_true; now rewrite F).
    congruence.
Qed.

(** A query that matches every document of a list keeps the list. *)
Lemma filter_all (az : analyzer) (u : string) (idx : list Doc.t) :
  (forall d, In d idx -> In u (az (Doc.username d))) ->
  filter (term_username az u) idx = idx.
Proof.
  induction idx as [|d idx IH]; simpl; intro H; [reflexivity|].
  assert (E : term_username az u d = true).
  { apply term_username_true. apply H. now left. }
  rewrite E. f_equal. apply IH. intros x Hx. apply H. now right.
Qed.

End ElasticFacts.

(** ** Facts about the handlers *)

Module ServerFacts.
Import JS Elastic Server Related JSFacts ElasticFacts.

Lemma subscribed_get_prop (o : object) (u : string) (t : jsval) :
  subscribed o u t = true <->
  exists set, get_prop o u = PSet set /\ set_has set t = true.
Proof.
  unfold subscribed. split.
  - destruct (own_get o u) as [set|] eqn:E; [|discriminate].
    intro H. exists set. split; [now apply get_prop_own | assumption].
  - intros [set [G H]]. apply get_prop_set in G. now rewrite G.
Qed.

Lemma subscribersOf_In (o : object) (u : string) (t : jsval) :
  In u (subscribersOf o t) <-> subscribed o u t = true.
Proof.
  unfold subscribersOf. rewrite filter_In, for_in_keys_own. split.
  - now intros [_ H].
  - intro H. split; [|assumption]. unfold subscribed in H.
    destruct (own_get o u) as [set|]; [now exists set | discriminate].
Qed.

(** On own keys the loop never throws: it stores one document for each
    subscriber whose write is accepted and emits once for each subscriber. *)
Lemma fan_out_own_keys (subs : object) (t : jsval) (n : Notification.t)
  (stored : string -> es_outcome) (keys : list string) :
  (forall k, In k keys -> exists set, own_get subs k = Some set) ->
  forall idx out,
    fan_out subs keys t n stored idx out
    = (idx ++ map (fun u => document u n)
                (filter (stored_ok stored)
                   (filter (fun u => subscribed subs u t) keys)),
       out ++ map (fun u => newPost u n)
                (filter (fun u => subscribed subs u t) keys),
       Normal).
Proof.
  induction keys as [|k keys IH]; intros Own idx out; simpl.
  - now rewrite !app_nil_r.
  - destruct (Own k (or_introl eq_refl)) as [set Hset].
    assert (Own' : forall x, In x keys -> exists set, own_get subs x = Some set)
      by (intros x Hx; apply Own; now right).
    assert (Hsub : subscribed subs k t = set_has set t)
      by (unfold subscribed; now rewrite Hset).
    rewrite (get_prop_own _ _ _ Hset), Hsub.
    destruct (set_has set t); simpl.
    + rewrite (IH Own'). unfold createNotification, stored_ok at 2.
      destruct (stored k); simpl; now rewrite <- !app_assoc.
    + apply (IH Own').
Qed.

Lemma fan_out_for_in (subs : object) (t : jsval) (n : Notification.t)
  (stored : string -> es_outcome) (idx : list Doc.t) :
  fan_out subs (for_in_keys subs) t n stored idx []
  = (idx ++ map (fun u => document u n)
              (filter (stored_ok stored) (subscribersOf subs t)),
     map (fun u => newPost u n) (subscribersOf subs t),
     Normal).
Proof.
  rewrite fan_out_own_keys.
  - reflexivity.
  - intros k H. now apply for_in_keys_own.
Qed.

(** POST /posts once the post is stored. *)
Lemma post_posts_stored (st : State) (req : PostsRequest) (env : PublishEnv) :
  post_stored env = EsOk ->
  post_posts st req env
  = ({| userSubscriptions := userSubscriptions st;
        sockets := sockets st;
        notifications_index :=
          notifications_index st
            ++ map (fun u => document u (notification_of req (clock env)))
                 (filter (stored_ok (notification_stored env))
                    (subscribersOf (userSubscriptions st) (topic req)));
        es_index7 := index_post (es_index7 st) (post_of req env) |},
     {| response := Some {| status := 201; body := JsonIndexResponse |};
        emitted :=
          map (fun u => newPost u (notification_of req (clock env)))
            (subscribersOf (userSubscriptions st) (topic req));
        ended := Normal |}).
Proof.
  intro H. unfold post_posts. rewrite H, fan_out_for_in. reflexivity.
Qed.

(** Whatever the engine answers, POST /posts leaves the registry and the
    sockets alone and only appends documents of subscribers. *)
Lemma post_posts_frame (st : State) (req : PostsRequest) (env : PublishEnv) :
  userSubscriptions (fst (post_posts st req env)) = userSubscriptions st
  /\ sockets (fst (post_posts st req env)) = sockets st
  /\ exists added,
       notifications_index (fst (post_posts st req env))
       = notifications_index st ++ added
       /\ forall d, In d added ->
            subscribed (userSubscriptions st) (Doc.username d) (topic req) = true.
Proof.
  destruct (post_stored env) as [|msg] eqn:E.
  - rewrite (post_posts_stored _ _ _ E). simpl. repeat split.
    eexists. split; [reflexivity|].
    intros d Hd. apply in_map_iff in Hd. destruct Hd as [u [<- Hu]].
    apply filter_In in Hu. destruct Hu as [Hu _].
    now apply subscribersOf_In in Hu.
  - unfold post_posts. rewrite E. simpl. repeat split.
    exists []. split; [now rewrite app_nil_r | intros d []].
Qed.

Lemma log_of_unsubscribed (st : State) (req : PostsRequest) (env : PublishEnv)
  (u : string) :
  subscribed (userSubscriptions st) u (topic req) = false ->
  log_of (fst (post_posts st req env)) u = log_of st u.
Proof.
  intro H. destruct (post_posts_frame st req env) as [_ [_ [added [E A]]]].
  unfold log_of. rewrite E, filter_app, (filed_none_added u added).
  - apply app_nil_r.
  - intros d Hd Eu. apply A in Hd. rewrite Eu in Hd. congruence.
Qed.

(** *** The registry under [add] and [delete] *)

Lemma subscribed_put (o : object) (k u : string) (set : jsset) (x : jsval) :
  subscribed (own_put o k set) u x
  = if String.eqb u k then set_has set x else subscribed o u x.
Proof.
  unfold subscribed. destruct (String.eqb u k) eqn:E.
  - apply String.eqb_eq in E. subst. now rewrite own_get_put_same.
  - apply String.eqb_neq in E. now rewrite own_get_put_other.
Qed.

Lemma subscribed_after_delete (o : object) (k u : string) (set : jsset)
  (t x : jsval) :
  own_get o k = Some set ->
  subscribed (own_put o k (set_delete set t)) u x = true ->
  subscribed o u x = true.
Proof.
  intros G. rewrite subscribed_put. destruct (String.eqb u k) eqn:E.
  - apply String.eqb_eq in E. subst. rewrite set_has_delete.
    intro H. apply andb_true_iff in H. unfold subscribed. rewrite G. tauto.
  - trivial.
Qed.

Lemma subscribed_after_add (o : object) (k u : string) (set : jsset)
  (t x : jsval) :
  own_get o k = Some set ->
  subscribed (own_put o k (set_add set t)) u x = true ->
  subscribed o u x = true \/ (u = k /\ x = t).
Proof.
  intros G. rewrite subscribed_put. destruct (String.eqb u k) eqn:E.
  - apply String.eqb_eq in E. subst. rewrite set_has_add.
    intro H. apply orb_true_iff in H. destruct H as [H|H].
    + left. unfold subscribed. now rewrite G.
    + right. split; [reflexivity | now apply same_value_zero_eq].
  - now left.
Qed.

Lemma subscribed_new_empty (o : object) (k u : string) (x : jsval) :
  own_get o k = None ->
  subscribed (own_put o k []) u x = subscribed o u x.
Proof.
  intro G. rewrite subscribed_put. destruct (String.eqb u k) eqn:E.
  - apply String.eqb_eq in E. subst. unfold subscribed. now rewrite G.
  - reflexivity.
Qed.

Lemma truthy_string (v : jsval) :
  truthy v = true -> v = JString (to_string v).
Proof. destruct v; simpl; [discriminate | reflexivity]. Qed.

(** *** The list of connected sockets *)

Lemma find_socket_id (l : list Socket.t) (sid : string) (s : Socket.t) :
  find_socket l sid = Some s -> Socket.id s = sid.
Proof.
  induction l as [|x l IH]; simpl; [discriminate|].
  destruct (String.eqb (Socket.id x) sid) eqn:E.
  - intros [= <-]. now apply String.eqb_eq.
  - exact IH.
Qed.

Lemma find_put_socket (l : list Socket.t) (s s' : Socket.t) :
  find_socket l (Socket.id s) = Some s ->
  Socket.id s' = Socket.id s ->
  find_socket (put_socket l s') (Socket.id s) = Some s'.
Proof.
  intros F I. induction l as [|x l IH]; simpl in *; [discriminate|].
  rewrite I. destruct (String.eqb (Socket.id x) (Socket.id s)) eqn:E; simpl.
  - now rewrite I, String.eqb_refl.
  - rewrite E. now apply IH.
Qed.

Lemma put_put_socket (l : list Socket.t) (s1 s2 : Socket.t) :
  Socket.id s1 = Socket.id s2 ->
  put_socket (put_socket l s1) s2 = put_socket l s2.
Proof.
  intro I. induction l as [|x l IH]; simpl; [reflexivity|].
  rewrite I. destruct (String.eqb (Socket.id x) (Socket.id s2)) eqn:E; simpl.
  - now rewrite I, String.eqb_refl.
  - now rewrite E, IH.
Qed.

Lemma join_join (s : Socket.t) (r : jsval) : join (join s r) r = join s r.
Proof. unfold join. simpl. now rewrite set_add_idem. Qed.

Lemma leave_leave (s : Socket.t) (r : jsval) : leave (leave s r) r = leave s r.
Proof. unfold leave. simpl. now rewrite set_delete_idem. Qed.

(** *** Handlers applied twice *)

Lemma post_unsubscribe_again (st : State) (u t : jsval) :
  fst (post_unsubscribe (fst (post_unsubscribe st u t)) u t)
  = fst (post_unsubscribe st u t).
Proof.
  assert (Inner : post_unsubscribe st u t = post_unsubscribe st u t)
    by reflexivity.
  unfold post_unsubscribe at 2 in Inner.
  destruct (negb (truthy u) || negb (truthy t)) eqn:V.
  - rewrite Inner. simpl. unfold post_unsubscribe. now rewrite V.
  - destruct (get_prop (userSubscriptions st) (to_string u)) as [|set|] eqn:G;
      rewrite Inner; simpl.
    + unfold post_unsubscribe. now rewrite V, G.
    + unfold post_unsubscribe. rewrite V. simpl.
      rewrite (get_prop_own _ _ (set_delete set t))
        by apply own_get_put_same.
      simpl. unfold with_subscriptions. simpl.
      now rewrite set_delete_idem, own_put_put.
    + unfold post_unsubscribe. now rewrite V, G.
Qed.

Lemma subscribeToTopic_sockets (st : State) (s : Socket.t) (t : jsval) :
  sockets (fst (subscribeToTopic st s t))
  = put_socket (sockets st) (join s t).
Proof.
  unfold subscribeToTopic. destruct (truthy (Socket.username s)).
  - simpl.
    destruct (get_prop
                (if prop_truthy
                      (get_prop (userSubscriptions st)
                         (to_string (Socket.username s)))
                 then userSubscriptions st
                 else own_put (userSubscriptions st)
                        (to_string (Socket.username s)) [])
                (to_string (Socket.username s))); reflexivity.
  - reflexivity.
Qed.

(** The registry after [subscribeToTopic], case by case. *)
Lemma subscribeToTopic_registry (st : State) (s : Socket.t) (t : jsval) :
  let k := to_string (Socket.username s) in
  let o := userSubscriptions st in
  userSubscriptions (fst (subscribeToTopic st s t))
  = if truthy (Socket.username s) then
      match own_get o k with
      | Some set => own_put o k (set_add set t)
      | None => if inherited k then o else own_put o k [t]
      end
    else o.
Proof.
  intros k o. unfold subscribeToTopic. fold k.
  destruct (truthy (Socket.username s)); [|reflexivity].
  cbn [userSubscriptions with_sockets]. fold o.
  destruct (own_get o k) as [set|] eqn:G.
  - assert (GP : get_prop o k = PSet set) by now apply get_prop_own.
    rewrite GP. cbn [prop_truthy]. rewrite GP. reflexivity.
  - destruct (inherited k) eqn:I.
    + assert (GP : get_prop o k = PInherited)
        by (unfold get_prop; now rewrite G, I).
      rewrite GP. cbn [prop_truthy]. rewrite GP. reflexivity.
    + assert (GP : get_prop o k = PUndefined)
        by (unfold get_prop; now rewrite G, I).
      rewrite GP. cbn [prop_truthy].
      rewrite (get_prop_own _ _ []) by apply own_get_put_same.
      simpl. now rewrite own_put_put.
Qed.

Lemma subscribeToTopic_rest (st : State) (s : Socket.t) (t : jsval) :
  notifications_index (fst (subscribeToTopic st s t)) = notifications_index st
  /\ es_index7 (fst (subscribeToTopic st s t)) = es_index7 st.
Proof.
  unfold subscribeToTopic. destruct (truthy (Socket.username s)).
  - simpl.
    destruct (get_prop
                (if prop_truthy
                      (get_prop (userSubscriptions st)
                         (to_string (Socket.username s)))
                 then userSubscriptions st
                 else own_put (userSubscriptions st)
                        (to_string (Socket.username s)) [])
                (to_string (Socket.username s))); split; reflexivity.
  - split; reflexivity.
Qed.

Lemma state_eq (a b : State) :
  userSubscriptions a = userSubscriptions b ->
  sockets a = sockets b ->
  notifications_index a = notifications_index b ->
  es_index7 a = es_index7 b ->
  a = b.
Proof. destruct a, b. simpl. now intros -> -> -> ->. Qed.

Lemma unsubscribeFromTopic_registry (st : State) (s : Socket.t) (t : jsval) :
  let k := to_string (Socket.username s) in
  let o := userSubscriptions st in
  userSubscriptions (fst (unsubscribeFromTopic st s t))
  = if truthy (Socket.username s) then
      match own_get o k with
      | Some set => own_put o k (set_delete set t)
      | None => o
      end
    else o.
Proof.
  intros k o. unfold unsubscribeFromTopic. fold k.
  cbn [userSubscriptions with_sockets]. fold o.
  destruct (truthy (Socket.username s)); [|reflexivity].
  cbn [andb]. destruct (own_get o k) as [set|] eqn:G.
  - assert (GP : get_prop o k = PSet set) by now apply get_prop_own.
    rewrite GP. reflexivity.
  - destruct (inherited k) eqn:I.
    + assert (GP : get_prop o k = PInherited)
        by (unfold get_prop; now rewrite G, I).
      rewrite GP. reflexivity.
    + assert (GP : get_prop o k = PUndefined)
        by (unfold get_prop; now rewrite G, I).
      rewrite GP. reflexivity.
Qed.

Lemma unsubscribeFromTopic_rest (st : State) (s : Socket.t) (t : jsval) :
  sockets (fst (unsubscribeFromTopic st s t))
  = put_socket (sockets st) (leave s t)
  /\ notifications_index (fst (unsubscribeFromTopic st s t))
     = notifications_index st
  /\ es_index7 (fst (unsubscribeFromTopic st s t)) = es_index7 st.
Proof.
  unfold unsubscribeFromTopic.
  destruct (truthy (Socket.username s)
            && prop_truthy
                 (get_prop
                    (userSubscriptions
                       (with_sockets st
                          (put_socket (sockets st) (leave s t))))
                    (to_string (Socket.username s)))).
  - destruct (get_prop
                (userSubscriptions
                   (with_sockets st (put_socket (sockets st) (leave s t))))
                (to_string (Socket.username s))); repeat split.
  - repeat split.
Qed.

Lemma subscribeToTopic_again (st : State) (s : Socket.t) (t : jsval) :
  fst (subscribeToTopic (fst (subscribeToTopic st s t)) (join s t) t)
  = fst (subscribeToTopic st s t).
Proof.
  apply state_eq.
  - rewrite (subscribeToTopic_registry (fst (subscribeToTopic st s t))).
    rewrite (subscribeToTopic_registry st). cbn [Socket.username join].
    destruct (truthy (Socket.username s)); [|reflexivity].
    destruct (own_get (userSubscriptions st) (to_string (Socket.username s)))
      as [set|] eqn:G.
    + now rewrite own_get_put_same, set_add_idem, own_put_put.
    + destruct (inherited (to_string (Socket.username s))) eqn:I.
      * now rewrite G.
      * rewrite own_get_put_same, own_put_put.
        unfold set_add, set_has. simpl.
        now rewrite same_value_zero_refl.
  - rewrite !subscribeToTopic_sockets, join_join.
    now apply put_put_socket.
  - destruct (subscribeToTopic_rest (fst (subscribeToTopic st s t)) (join s t) t)
      as [E _]. exact E.
  - destruct (subscribeToTopic_rest (fst (subscribeToTopic st s t)) (join s t) t)
      as [_ E]. exact E.
Qed.

Lemma unsubscribeFromTopic_again (st : State) (s : Socket.t) (t : jsval) :
  fst (unsubscribeFromTopic (fst (unsubscribeFromTopic st s t)) (leave s t) t)
  = fst (unsubscribeFromTopic st s t).
Proof.
  destruct (unsubscribeFromTopic_rest
              (fst (unsubscribeFromTopic st s t)) (leave s t) t)
    as [S2 [N2 P2]].
  destruct (unsubscribeFromTopic_rest st s t) as [S1 _].
  apply state_eq.
  - rewrite (unsubscribeFromTopic_registry (fst (unsubscribeFromTopic st s t))).
    rewrite (unsubscribeFromTopic_registry st). cbn [Socket.username leave].
    destruct (truthy (Socket.username s)); [|reflexivity].
    destruct (own_get (userSubscriptions st) (to_string (Socket.username s)))
      as [set|] eqn:G.
    + now rewrite own_get_put_same, set_delete_idem, own_put_put.
    + now rewrite G.
  - rewrite S2, S1, leave_leave. now apply put_put_socket.
  - exact N2.
  - exact P2.
Qed.

Lemma step_subscribe_again (st : State) (sid : string) (t : jsval) :
  fst (step (fst (step st (SubscribeToTopic sid t))) (SubscribeToTopic sid t))
  = fst (step st (SubscribeToTopic sid t)).
Proof.
  cbn [step]. unfold on_socket at 2 3.
  destruct (find_socket (sockets st) sid) as [s|] eqn:F.
  - pose proof (find_socket_id _ _ _ F) as I. subst sid.
    unfold on_socket. rewrite subscribeToTopic_sockets.
    rewrite (find_put_socket _ s (join s t) F eq_refl).
    apply subscribeToTopic_again.
  - cbn [fst]. unfold on_socket. now rewrite F.
Qed.

Lemma step_unsubscribe_again (st : State) (sid : string) (t : jsval) :
  fst (step (fst (step st (UnsubscribeFromTopic sid t)))
         (UnsubscribeFromTopic sid t))
  = fst (step st (UnsubscribeFromTopic sid t)).
Proof.
  cbn [step]. unfold on_socket at 2 3.
  destruct (find_socket (sockets st) sid) as [s|] eqn:F.
  - pose proof (find_socket_id _ _ _ F) as I. subst sid.
    unfold on_socket. destruct (unsubscribeFromTopic_rest st s t) as [S _].
    rewrite S. rewrite (find_put_socket _ s (leave s t) F eq_refl).
    apply unsubscribeFromTopic_again.
  - cbn [fst]. unfold on_socket. now rewrite F.
Qed.

(** *** What each handler does to the registry and to the index *)

Lemma get_prop_cases (o : object) (k : string) :
  (exists set, own_get o k = Some set /\ get_prop o k = PSet set)
  \/ (own_get o k = None /\ inherited k = true /\ get_prop o k = PInherited)
  \/ (own_get o k = None /\ inherited k = false /\ get_prop o k = PUndefined).
Proof.
  unfold get_prop. destruct (own_get o k) as [set|].
  - left. now exists set.
  - destruct (inherited k); auto.
Qed.

Lemma post_unsubscribe_registry (st : State) (u t : jsval) :
  userSubscriptions (fst (post_unsubscribe st u t))
  = if negb (truthy u) || negb (truthy t) then userSubscriptions st
    else match own_get (userSubscriptions st) (to_string u) with
         | Some set =>
             own_put (userSubscriptions st) (to_string u) (set_delete set t)
         | None => userSubscriptions st
         end.
Proof.
  unfold post_unsubscribe.
  destruct (negb (truthy u) || negb (truthy t)); [reflexivity|].
  destruct (get_prop_cases (userSubscriptions st) (to_string u))
    as [[set [G GP]] | [[G [_ GP]] | [G [_ GP]]]]; rewrite GP, G; reflexivity.
Qed.

Lemma post_unsubscribe_rest (st : State) (u t : jsval) :
  sockets (fst (post_unsubscribe st u t)) = sockets st
  /\ notifications_index (fst (post_unsubscribe st u t))
     = notifications_index st
  /\ es_index7 (fst (post_unsubscribe st u t)) = es_index7 st.
Proof.
  unfold post_unsubscribe.
  destruct (negb (truthy u) || negb (truthy t)); [repeat split|].
  destruct (get_prop (userSubscriptions st) (to_string u)); repeat split.
Qed.

(** The only handler that can add a pair to the registry. *)
Lemma step_adds_only_by_socket (st : State) (e : event) (u : string)
  (x : jsval) :
  subscribed (userSubscriptions (fst (step st e))) u x = true ->
  subscribed (userSubscriptions st) u x = false ->
  exists sid s,
    e = SubscribeToTopic sid x
    /\ find_socket (sockets st) sid = Some s
    /\ Socket.username s = JString u.
Proof.
  intros After Before.
  destruct e as [sid|sid w|sid t|sid t|sid|req env|w az o|w az o|w t|w t];
    cbn [step] in After.
  - unfold connection in After.
    destruct (find_socket (sockets st) sid); simpl in After; congruence.
  - unfold on_socket in After.
    destruct (find_socket (sockets st) sid); simpl in After; congruence.
  - unfold on_socket in After.
    destruct (find_socket (sockets st) sid) as [s|] eqn:F;
      [|simpl in After; congruence].
    rewrite subscribeToTopic_registry in After.
    destruct (truthy (Socket.username s)) eqn:T; [|congruence].
    assert (K : forall k, u = k -> k = to_string (Socket.username s) ->
                Socket.username s = JString u).
    { intros k -> ->. now apply truthy_string. }
    destruct (own_get (userSubscriptions st) (to_string (Socket.username s)))
      as [set|] eqn:G.
    + destruct (subscribed_after_add _ _ _ _ _ _ G After) as [H|[Hu Hx]];
        [congruence|]. subst x. exists sid, s. eauto.
    + destruct (inherited (to_string (Socket.username s))); [congruence|].
      rewrite subscribed_put in After.
      destruct (String.eqb u (to_string (Socket.username s))) eqn:E;
        [|congruence].
      apply String.eqb_eq in E. unfold set_has in After. simpl in After.
      rewrite orb_false_r in After. apply same_value_zero_eq in After.
      subst x. exists sid, s. eauto.
  - unfold on_socket in After.
    destruct (find_socket (sockets st) sid) as [s|] eqn:F;
      [|simpl in After; congruence].
    rewrite unsubscribeFromTopic_registry in After.
    destruct (truthy (Socket.username s)); [|congruence].
    destruct (own_get (userSubscriptions st) (to_string (Socket.username s)))
      as [set|] eqn:G; [|congruence].
    apply (subscribed_after_delete _ _ _ _ _ _ G) in After. congruence.
  - unfold on_socket in After.
    destruct (find_socket (sockets st) sid); simpl in After; congruence.
  - destruct (post_posts_frame st req env) as [R _]. rewrite R in After.
    congruence.
  - destruct o; simpl in After; congruence.
  - destruct o; simpl in After; congruence.
  - unfold post_subscribe in After.
    destruct (negb (truthy w) || negb (truthy t)); simpl in After; congruence.
  - rewrite post_unsubscribe_registry in After.
    destruct (negb (truthy w) || negb (truthy t)); [congruence|].
    destruct (own_get (userSubscriptions st) (to_string w)) as [set|] eqn:G;
      [|congruence].
    apply (subscribed_after_delete _ _ _ _ _ _ G) in After. congruence.
Qed.

(** The notification index after one event. *)
Lemma step_index (st : State) (e : event) :
  notifications_index (fst (step st e))
  = match e with
    | PostPosts req env => notifications_index (fst (post_posts st req env))
    | ClearNotifications u az EsOk =>
        delete_by_username az (notifications_index st) u
    | _ => notifications_index st
    end.
Proof.
  destruct e as [sid|sid w|sid t|sid t|sid|req env|w az o|w az o|w t|w t];
    cbn [step]; try reflexivity.
  - unfold connection. now destruct (find_socket (sockets st) sid).
  - unfold on_socket. now destruct (find_socket (sockets st) sid).
  - unfold on_socket. destruct (find_socket (sockets st) sid); [|reflexivity].
    apply subscribeToTopic_rest.
  - unfold on_socket. destruct (find_socket (sockets st) sid); [|reflexivity].
    apply unsubscribeFromTopic_rest.
  - unfold on_socket. now destruct (find_socket (sockets st) sid).
  - now destruct o.
  - now destruct o.
  - unfold post_subscribe. now destruct (negb (truthy w) || negb (truthy t)).
  - apply post_unsubscribe_rest.
Qed.

(** *** Rooms do not reach the registry or the index *)

Lemma find_socket_bound (l1 l2 : list Socket.t) (sid : string) :
  map binding l1 = map binding l2 ->
  match find_socket l1 sid, find_socket l2 sid with
  | Some s1, Some s2 => binding s1 = binding s2
  | None, None => True
  | _, _ => False
  end.
Proof.
  revert l2. induction l1 as [|x l1 IH]; intros [|y l2] E; simpl in *;
    try discriminate; [exact I|].
  inversion E as [[Ei Eu E']]. rewrite Ei.
  destruct (String.eqb (Socket.id y) sid).
  - unfold binding. congruence.
  - now apply IH.
Qed.

Lemma put_socket_bound (l1 l2 : list Socket.t) (s1 s2 : Socket.t) :
  map binding l1 = map binding l2 ->
  binding s1 = binding s2 ->
  map binding (put_socket l1 s1) = map binding (put_socket l2 s2).
Proof.
  intros E B. revert l2 E.
  induction l1 as [|x l1 IH]; intros [|y l2] E; simpl in *;
    try discriminate; [reflexivity|].
  inversion E as [[Ei Eu E']]. inversion B as [[Bi Bu]]. rewrite Ei, Bi.
  destruct (String.eqb (Socket.id y) (Socket.id s2)); simpl.
  - now rewrite B, E'.
  - unfold binding at 1 3. rewrite Ei, Eu. f_equal. now apply IH.
Qed.

Lemma drop_socket_bound (l1 l2 : list Socket.t) (sid : string) :
  map binding l1 = map binding l2 ->
  map binding (drop_socket l1 sid) = map binding (drop_socket l2 sid).
Proof.
  revert l2. unfold drop_socket.
  induction l1 as [|x l1 IH]; intros [|y l2] E; simpl in *;
    try discriminate; [reflexivity|].
  inversion E as [[Ei Eu E']]. rewrite Ei.
  destruct (String.eqb (Socket.id y) sid); simpl.
  - now apply IH.
  - unfold binding at 1 3. rewrite Ei, Eu. f_equal. now apply IH.
Qed.

Lemma subscribeToTopic_output (st : State) (s : Socket.t) (t : jsval) :
  snd (subscribeToTopic st s t)
  = if truthy (Socket.username s) then
      match own_get (userSubscriptions st) (to_string (Socket.username s)) with
      | Some _ => silent
      | None =>
          if inherited (to_string (Socket.username s)) then
            uncaught "userSubscriptions[socket.username].add is not a function"
          else silent
      end
    else silent.
Proof.
  unfold subscribeToTopic. cbn [userSubscriptions with_sockets].
  destruct (truthy (Socket.username s)); [|reflexivity].
  destruct (get_prop_cases (userSubscriptions st)
              (to_string (Socket.username s)))
    as [[set [G GP]] | [[G [Ih GP]] | [G [Ih GP]]]];
    rewrite GP, G; cbn [prop_truthy].
  - now rewrite GP.
  - now rewrite GP, Ih.
  - rewrite (get_prop_own _ _ []) by apply own_get_put_same. now rewrite Ih.
Qed.

Lemma unsubscribeFromTopic_output (st : State) (s : Socket.t) (t : jsval) :
  snd (unsubscribeFromTopic st s t)
  = if truthy (Socket.username s) then
      match own_get (userSubscriptions st) (to_string (Socket.username s)) with
      | Some _ => silent
      | None =>
          if inherited (to_string (Socket.username s)) then
            uncaught
              "userSubscriptions[socket.username].delete is not a function"
          else silent
      end
    else silent.
Proof.
  unfold unsubscribeFromTopic. cbn [userSubscriptions with_sockets].
  destruct (truthy (Socket.username s)); [|reflexivity].
  destruct (get_prop_cases (userSubscriptions st)
              (to_string (Socket.username s)))
    as [[set [G GP]] | [[G [Ih GP]] | [G [Ih GP]]]];
    rewrite GP, G; cbn [prop_truthy andb]; try rewrite Ih; reflexivity.
Qed.

Lemma post_posts_same (a b : State) (req : PostsRequest) (env : PublishEnv) :
  same_but_rooms a b ->
  same_but_rooms (fst (post_posts a req env)) (fst (post_posts b req env))
  /\ snd (post_posts a req env) = snd (post_posts b req env).
Proof.
  intros [Es [Eb [En Ep]]]. unfold same_but_rooms, bindings in *.
  destruct (post_stored env) as [|msg] eqn:P.
  - rewrite !(post_posts_stored _ _ _ P). simpl.
    rewrite Es, En, Ep. repeat split. exact Eb.
  - unfold post_posts. rewrite P. simpl. repeat split; assumption.
Qed.

Lemma step_same_but_rooms (a b : State) (e : event) :
  same_but_rooms a b ->
  same_but_rooms (fst (step a e)) (fst (step b e))
  /\ snd (step a e) = snd (step b e).
Proof.
  intros R. pose proof R as [Es [Eb [En Ep]]]. unfold bindings in Eb.
  fold binding in Eb.
  destruct e as [sid|sid w|sid t|sid t|sid|req env|w az o|w az o|w t|w t];
    cbn [step].
  - unfold connection.
    pose proof (find_socket_bound _ _ sid Eb) as F.
    destruct (find_socket (sockets a) sid), (find_socket (sockets b) sid);
      try contradiction; simpl; (split; [|reflexivity]).
    + exact R.
    + unfold same_but_rooms, bindings. simpl. fold binding.
      rewrite !map_app, Eb. simpl. auto.
  - unfold on_socket.
    pose proof (find_socket_bound _ _ sid Eb) as F.
    destruct (find_socket (sockets a) sid) as [s1|],
             (find_socket (sockets b) sid) as [s2|];
      try contradiction; simpl; (split; [|reflexivity]); [|exact R].
    unfold same_but_rooms, bindings. simpl. fold binding.
    repeat split; try assumption.
    apply put_socket_bound; [assumption|].
    unfold binding in *. simpl. congruence.
  - unfold on_socket.
    pose proof (find_socket_bound _ _ sid Eb) as F.
    destruct (find_socket (sockets a) sid) as [s1|],
             (find_socket (sockets b) sid) as [s2|];
      try contradiction; [|split; [exact R | reflexivity]].
    inversion F as [[Fi Fu]].
    destruct (subscribeToTopic_rest a s1 t) as [Na Pa].
    destruct (subscribeToTopic_rest b s2 t) as [Nb Pb].
    split.
    + unfold same_but_rooms, bindings. fold binding.
      rewrite !subscribeToTopic_registry, !subscribeToTopic_sockets.
      rewrite Na, Nb, Pa, Pb, Fu, Es. repeat split; try assumption.
      apply put_socket_bound; [assumption|].
      unfold binding. simpl. congruence.
    + rewrite !subscribeToTopic_output. now rewrite Fu, Es.
  - unfold on_socket.
    pose proof (find_socket_bound _ _ sid Eb) as F.
    destruct (find_socket (sockets a) sid) as [s1|],
             (find_socket (sockets b) sid) as [s2|];
      try contradiction; [|split; [exact R | reflexivity]].
    inversion F as [[Fi Fu]].
    destruct (unsubscribeFromTopic_rest a s1 t) as [Sa [Na Pa]].
    destruct (unsubscribeFromTopic_rest b s2 t) as [Sb [Nb Pb]].
    split.
    + unfold same_but_rooms, bindings. fold binding.
      rewrite !unsubscribeFromTopic_registry.
      rewrite Sa, Sb, Na, Nb, Pa, Pb, Fu, Es. repeat split; try assumption.
      apply put_socket_bound; [assumption|].
      unfold binding. simpl. congruence.
    + rewrite !unsubscribeFromTopic_output. now rewrite Fu, Es.
  - unfold on_socket.
    pose proof (find_socket_bound _ _ sid Eb) as F.
    destruct (find_socket (sockets a) sid) as [s1|],
             (find_socket (sockets b) sid) as [s2|];
      try contradiction; simpl; (split; [|reflexivity]); [|exact R].
    inversion F as [[Fi Fu]].
    unfold same_but_rooms, bindings. simpl. fold binding.
    repeat split; try assumption. rewrite Fi. now apply drop_socket_bound.
  - now apply post_posts_same.
  - unfold get_notifications. destruct o; simpl; rewrite ?En; auto.
  - unfold clear_notifications. destruct o; simpl; [|auto].
    split; [|reflexivity].
    unfold same_but_rooms, bindings. simpl. fold binding.
    rewrite En. auto.
  - unfold post_subscribe.
    destruct (negb (truthy w) || negb (truthy t)); simpl; auto.
  - destruct (post_unsubscribe_rest a w t) as [Sa [Na Pa]].
    destruct (post_unsubscribe_rest b w t) as [Sb [Nb Pb]].
    split.
    + unfold same_but_rooms, bindings. fold binding.
      rewrite !post_unsubscribe_registry, Sa, Sb, Na, Nb, Pa, Pb, Es.
      auto.
    + unfold post_unsubscribe. rewrite Es.
      destruct (negb (truthy w) || negb (truthy t)); [reflexivity|].
      destruct (get_prop (userSubscriptions b) (to_string w)); reflexivity.
Qed.

Lemma run_same_but_rooms (evs : list event) (a b : State) :
  same_but_rooms a b -> same_but_rooms (run a evs) (run b evs).
Proof.
  revert a b. induction evs as [|e evs IH]; intros a b R; simpl.
  - exact R.
  - destruct (step_same_but_rooms a b e R) as [R' O].
    destruct (step a e) as [a' oa], (step b e) as [b' ob]. simpl in *.
    subst ob. destruct (ended oa); [now apply IH | exact R'].
Qed.

Lemma put_socket_find (l : list Socket.t) (s : Socket.t) :
  find_socket l (Socket.id s) = Some s -> put_socket l s = l.
Proof.
  induction l as [|x l IH]; simpl; [reflexivity|].
  destruct (String.eqb (Socket.id x) (Socket.id s)).
  - now intros [= ->].
  - intro H. now rewrite IH.
Qed.

Lemma unbound_subscribe_same (st : State) (s : Socket.t) (t : jsval) :
  find_socket (sockets st) (Socket.id s) = Some s ->
  truthy (Socket.username s) = false ->
  same_but_rooms (fst (subscribeToTopic st s t)) st.
Proof.
  intros F T. destruct (subscribeToTopic_rest st s t) as [N P].
  unfold same_but_rooms, bindings.
  rewrite subscribeToTopic_registry, subscribeToTopic_sockets, T, N, P.
  repeat split.
  rewrite <- (put_socket_find _ _ F) at 2.
  now apply put_socket_bound.
Qed.

Lemma find_socket_receives (st : State) (sid : string) (s : Socket.t)
  (r : jsval) :
  find_socket (sockets st) sid = Some s ->
  set_has (Socket.rooms s) r = true ->
  In sid (receivers st r).
Proof.
  intros F H. unfold receivers. apply in_map_iff. exists s.
  split; [now apply (find_socket_id _ _ _ F)|].
  apply filter_In. split; [|assumption].
  revert F. generalize (sockets st). intro l.
  induction l as [|x l IH]; simpl; [discriminate|].
  destruct (String.eqb (Socket.id x) sid).
  - intros [= ->]. now left.
  - intro F. right. now apply IH.
Qed.

End ServerFacts.

(** ** The properties of the notification core *)

Module Properties.
Import JS Elastic Server Related Scenario Cases.
Import JSFacts ElasticFacts ServerFacts.

(** C1.  The claim: a subscribe(u,t) made through POST /subscribe before a
    post with topic t is published puts a notification with that post's id
    into u's listing.  On the code it does not: POST /subscribe returns the
    state it was given whatever the request; it answers
    "Subscribed alice to sports" and stores nothing, so after p1 is published
    GET /notifications/alice lists nothing, however the engine has indexed
    the names.  The same subscription made over the socket
    ([three_subscribers]) does deliver a notification with postId p1,
    listed wherever the engine finds "alice", and only "alice", under the
    term "alice". *)
Theorem http_subscribe_then_publish_lists_nothing :
  (forall st u t, fst (step st (PostSubscribe u t)) = st)
  /\ snd (step initial (PostSubscribe alice sports))
     = respond 200 (JsonMessage "Subscribed alice to sports")
  /\ (forall az,
        snd (step
               (run initial [PostSubscribe alice sports;
                             PostPosts p1 (all_stored 1000)])
               (GetNotifications "alice" az EsOk))
        = respond 200 (JsonNotifications []))
  /\ (forall az,
        In "alice" (az "alice") ->
        ~ In "alice" (az "carol") ->
        ~ In "alice" (az "7") ->
        map Doc.postId (listFor az after_p1 "alice") = [JString "p1"]).
Proof.
  split; [|split; [reflexivity | split; [intro az; reflexivity|]]].
  - intros st u t. cbn [step]. unfold post_subscribe.
    now destruct (negb (truthy u) || negb (truthy t)).
  - intros az Ha Hc H7. unfold listFor, search_username.
    change (notifications_index after_p1)
      with [document "7" (notification_of p1 1000);
            document "alice" (notification_of p1 1000);
            document "carol" (notification_of p1 1000)].
    assert (Ta : term_username az "alice"
                   (document "alice" (notification_of p1 1000)) = true)
      by (apply term_username_true; exact Ha).
    assert (Tc : term_username az "alice"
                   (document "carol" (notification_of p1 1000)) = false).
    { destruct (term_username az "alice"
                  (document "carol" (notification_of p1 1000))) eqn:E;
        [|reflexivity].
      apply term_username_true in E. contradiction. }
    assert (T7 : term_username az "alice"
                   (document "7" (notification_of p1 1000)) = false).
    { destruct (term_username az "alice"
                  (document "7" (notification_of p1 1000))) eqn:E;
        [|reflexivity].
      apply term_username_true in E. contradiction. }
    cbn [filter]. now rewrite T7, Ta, Tc.
Qed.

Lemma http_subscribe_then_publish_lists_nothing_witness :
  In "alice" (standard "alice")
  /\ ~ In "alice" (standard "carol")
  /\ ~ In "alice" (standard "7")
  /\ snd (step
            (run initial [PostSubscribe alice sports;
                          PostPosts p1 (all_stored 1000)])
            (GetNotifications "alice" standard EsOk))
     = respond 200 (JsonNotifications [])
  /\ map Doc.postId (listFor standard after_p1 "alice") = [JString "p1"].
Proof.
  assert (Ha : In "alice" (standard "alice")) by (left; reflexivity).
  assert (Hc : ~ In "alice" (standard "carol")).
  { intros [E|[]]. discriminate. }
  assert (H7 : ~ In "alice" (standard "7")).
  { intros [E|[]]. discriminate. }
  destruct http_subscribe_then_publish_lists_nothing as [_ [_ [G L]]].
  split; [exact Ha|]. split; [exact Hc|]. split; [exact H7|].
  split; [exact (G standard) | exact (L standard Ha Hc H7)].
Defined.

(** C2.  A POST /subscribe that carries a username and a topic answers
    "Subscribed <username> to <topic>" with status 200 and returns the state
    it was given: [userSubscriptions] is untouched.  Across all events a pair
    (u, x) enters the registry only through [subscribeToTopic] on a socket
    registered as u. *)
Theorem post_subscribe_stores_nothing (st : State) (username t : jsval) :
  truthy username = true ->
  truthy t = true ->
  post_subscribe st username t
  = (st, respond 200
           (JsonMessage
              ("Subscribed " ++ to_string username ++ " to " ++ to_string t)%string))
  /\ (forall st0 e u x,
        subscribed (userSubscriptions (fst (step st0 e))) u x = true ->
        subscribed (userSubscriptions st0) u x = false ->
        exists sid s,
          e = SubscribeToTopic sid x
          /\ find_socket (sockets st0) sid = Some s
          /\ Socket.username s = JString u).
Proof.
  intros Hu Ht. split.
  - unfold post_subscribe. now rewrite Hu, Ht.
  - intros st0 e u x. apply step_adds_only_by_socket.
Qed.

Lemma post_subscribe_stores_nothing_witness :
  truthy alice = true
  /\ truthy sports = true
  /\ post_subscribe alice_registered alice sports
     = (alice_registered,
        respond 200 (JsonMessage "Subscribed alice to sports"))
  /\ subscribed
       (userSubscriptions
          (fst (step alice_registered (SubscribeToTopic "s1" sports))))
       "alice" sports = true
  /\ subscribed (userSubscriptions alice_registered) "alice" sports = false
  /\ exists sid s,
       SubscribeToTopic "s1" sports = SubscribeToTopic sid sports
       /\ find_socket (sockets alice_registered) sid = Some s
       /\ Socket.username s = JString "alice".
Proof.
  destruct (post_subscribe_stores_nothing alice_registered alice sports
              eq_refl eq_refl) as [R O].
  split; [reflexivity|]. split; [reflexivity|]. split; [exact R|].
  split; [reflexivity|]. split; [reflexivity|].
  exact (O alice_registered (SubscribeToTopic "s1" sports) "alice" sports
           eq_refl eq_refl).
Defined.

(** C3.  The claim: publishing a post with topic t leaves the notification
    list of a user who holds no subscription to t unchanged.  On the code it
    does not.  The routes write to and query 'notifications_index', an index
    without the keyword mapping lines 80-99 give to 'notifications_index2';
    whenever the engine has filed the name "Alice" under the term "alice",
    as the standard analyzer of a text field does, a post published to the
    subscriber "Alice" turns up in GET /notifications/alice, which listed
    nothing before, although no document is filed under "alice" and "alice"
    holds no subscription. *)
Theorem publish_is_listed_for_a_non_subscriber (az : analyzer) :
  In "alice" (az "Alice") ->
  ~ In "alice" (az "bob") ->
  subscribed (userSubscriptions capital_alice) "alice" (topic p1) = false
  /\ map Doc.username (notifications_index capital_alice) = ["bob"]
  /\ listFor az capital_alice "alice" = []
  /\ log_of (fst (post_posts capital_alice p1 (all_stored 1000))) "alice" = []
  /\ listFor az (fst (post_posts capital_alice p1 (all_stored 1000))) "alice"
     = [document "Alice" (notification_of p1 1000)]
  /\ snd (get_notifications
            (fst (post_posts capital_alice p1 (all_stored 1000)))
            "alice" az EsOk)
     <> snd (get_notifications capital_alice "alice" az EsOk).
Proof.
  intros H N.
  assert (Tb : forall n, term_username az "alice" (document "bob" n) = false).
  { intro n. destruct (term_username az "alice" (document "bob" n)) eqn:E;
      [|reflexivity].
    apply term_username_true in E. contradiction. }
  assert (Ta : forall n, term_username az "alice" (document "Alice" n) = true).
  { intro n. apply term_username_true. exact H. }
  assert (B : listFor az capital_alice "alice" = []).
  { unfold listFor, search_username.
    change (notifications_index capital_alice)
      with [document "bob" (notification_of (chess_post "c0") 500)].
    cbn [filter]. now rewrite Tb. }
  assert (L : listFor az (fst (post_posts capital_alice p1 (all_stored 1000)))
                "alice"
              = [document "Alice" (notification_of p1 1000)]).
  { unfold listFor, search_username.
    change (notifications_index
              (fst (post_posts capital_alice p1 (all_stored 1000))))
      with [document "bob" (notification_of (chess_post "c0") 500);
            document "Alice" (notification_of p1 1000)].
    cbn [filter]. now rewrite Tb, Ta. }
  split; [reflexivity|]. split; [reflexivity|]. split; [exact B|].
  split; [reflexivity|]. split; [exact L|].
  unfold get_notifications. cbn [snd]. unfold listFor in L, B.
  rewrite L, B. discriminate.
Qed.

Lemma publish_is_listed_for_a_non_subscriber_witness :
  In "alice" (standard "Alice")
  /\ ~ In "alice" (standard "bob")
  /\ subscribed (userSubscriptions capital_alice) "alice" (topic p1) = false
  /\ listFor standard capital_alice "alice" = []
  /\ log_of (fst (post_posts capital_alice p1 (all_stored 1000))) "alice" = []
  /\ listFor standard (fst (post_posts capital_alice p1 (all_stored 1000)))
       "alice"
     = [document "Alice" (notification_of p1 1000)].
Proof.
  assert (H : In "alice" (standard "Alice")) by (left; reflexivity).
  assert (N : ~ In "alice" (standard "bob")).
  { intros [E|[]]. discriminate. }
  destruct (publish_is_listed_for_a_non_subscriber standard H N)
    as [S [_ [B [G [L _]]]]].
  split; [exact H|]. split; [exact N|]. split; [exact S|]. split; [exact B|].
  split; [exact G | exact L].
Defined.

(** C4.  If storing the post fails, POST /posts answers with status 500 and
    the error's message, the state is what it was (no notification is
    appended for any user) and nothing is emitted. *)
Theorem failed_persist_aborts_publish
  (st : State) (req : PostsRequest) (env : PublishEnv) (msg : string) :
  post_stored env = EsFail msg ->
  fst (post_posts st req env) = st
  /\ response (snd (post_posts st req env))
     = Some {| status := 500; body := JsonError msg |}
  /\ emitted (snd (post_posts st req env)) = []
  /\ notifications_index (fst (post_posts st req env)) = notifications_index st.
Proof.
  intro H. unfold post_posts. rewrite H. simpl. repeat split; reflexivity.
Qed.

Lemma failed_persist_aborts_publish_witness :
  post_stored (post_refused 1000)
  = EsFail "connect ECONNREFUSED 127.0.0.1:9200"
  /\ fst (post_posts three_subscribers p1 (post_refused 1000))
     = three_subscribers
  /\ response (snd (post_posts three_subscribers p1 (post_refused 1000)))
     = Some {| status := 500;
               body := JsonError "connect ECONNREFUSED 127.0.0.1:9200" |}
  /\ emitted (snd (post_posts three_subscribers p1 (post_refused 1000))) = []
  /\ notifications_index
       (fst (post_posts three_subscribers p1 (post_refused 1000)))
     = notifications_index three_subscribers.
Proof.
  split; [reflexivity|].
  apply (failed_persist_aborts_publish three_subscribers p1 (post_refused 1000)).
  reflexivity.
Defined.

(** C5.  When the post is stored, the documents POST /posts appends to the
    notification index all carry the message
    "New post in <topic> posted by <author>: <title>", the time read at
    publish, the post's id, the post's topic and read = false, and every
    subscriber whose write is accepted gets such a document under their
    name. *)
Theorem published_notification_fields
  (st : State) (req : PostsRequest) (env : PublishEnv) :
  post_stored env = EsOk ->
  exists added,
    notifications_index (fst (post_posts st req env))
    = notifications_index st ++ added
    /\ (forall d, In d added ->
          Doc.message d
          = ("New post in " ++ to_string (topic req) ++ " posted by "
               ++ to_string (author req) ++ ": " ++ to_string (title req))%string
          /\ Doc.timestamp d = clock env
          /\ Doc.postId d = id req
          /\ Doc.topic d = topic req
          /\ Doc.read d = false)
    /\ (forall u,
          subscribed (userSubscriptions st) u (topic req) = true ->
          stored_ok (notification_stored env) u = true ->
          exists d, In d added /\ Doc.username d = u).
Proof.
  intro H. rewrite (post_posts_stored _ _ _ H). simpl.
  eexists. split; [reflexivity|]. split.
  - intros d Hd. apply in_map_iff in Hd. destruct Hd as [u [<- _]].
    simpl. repeat split; reflexivity.
  - intros u Hs Ho. exists (document u (notification_of req (clock env))).
    split; [|reflexivity].
    apply in_map_iff. exists u. split; [reflexivity|].
    apply filter_In. split; [now apply subscribersOf_In | assumption].
Qed.

Lemma published_notification_fields_witness :
  post_stored (all_stored 1000) = EsOk
  /\ exists added,
       notifications_index (fst (post_posts three_subscribers p1 (all_stored 1000)))
       = notifications_index three_subscribers ++ added
       /\ (forall d, In d added ->
             Doc.message d
             = ("New post in " ++ to_string (topic p1) ++ " posted by "
                  ++ to_string (author p1) ++ ": " ++ to_string (title p1))%string
             /\ Doc.timestamp d = clock (all_stored 1000)
             /\ Doc.postId d = id p1
             /\ Doc.topic d = topic p1
             /\ Doc.read d = false)
       /\ (forall u,
             subscribed (userSubscriptions three_subscribers) u (topic p1) = true ->
             stored_ok (notification_stored (all_stored 1000)) u = true ->
             exists d, In d added /\ Doc.username d = u).
Proof.
  split; [reflexivity|].
  apply (published_notification_fields three_subscribers p1 (all_stored 1000)).
  reflexivity.
Defined.

(** C6.  The claim: after unsubscribe(u,t) a publish to t adds nothing for
    u, and every notification logged for u before stays in u's notification
    list until a clear for u.  The first half holds; the second does not.
    The search of GET /notifications/:username names no [size], so the
    engine lists ten hits: alice, who has unsubscribed from sports, still
    has the notification of p1 listed; after ten posts on chess and no clear
    the document is still in the index, and the listing no longer has it. *)
Theorem logged_notification_leaves_the_listing (az : analyzer) :
  In "alice" (az "alice") ->
  subscribed (userSubscriptions alice_left_sports) "alice" sports = false
  /\ map Doc.postId (listFor az alice_left_sports "alice") = [JString "p1"]
  /\ (forall u g o, ~ In (ClearNotifications u g o) ten_on_chess)
  /\ In (JString "p1")
       (map Doc.postId (log_of (run alice_left_sports ten_on_chess) "alice"))
  /\ map Doc.postId (listFor az (run alice_left_sports ten_on_chess) "alice")
     = [ JString "c10"; JString "c9"; JString "c8"; JString "c7";
         JString "c6"; JString "c5"; JString "c4"; JString "c3";
         JString "c2"; JString "c1" ].
Proof.
  intro H.
  assert (A : forall idx,
             Forall (fun d => Doc.username d = "alice") idx ->
             filter (term_username az "alice") idx = idx).
  { intros idx F. apply filter_all. intros d Hd.
    rewrite Forall_forall in F. now rewrite (F d Hd). }
  split; [reflexivity|]. split; [|split; [|split]].
  - unfold listFor, search_username. rewrite A; [reflexivity|].
    repeat constructor.
  - intros u g o I. repeat (destruct I as [I|I]; [discriminate|]).
    destruct I.
  - left. reflexivity.
  - unfold listFor, search_username. rewrite A; [reflexivity|].
    repeat constructor.
Qed.

Lemma logged_notification_leaves_the_listing_witness :
  In "alice" (standard "alice")
  /\ In (JString "p1")
       (map Doc.postId (listFor standard alice_left_sports "alice"))
  /\ In (JString "p1")
       (map Doc.postId (log_of (run alice_left_sports ten_on_chess) "alice"))
  /\ ~ In (JString "p1")
         (map Doc.postId
            (listFor standard (run alice_left_sports ten_on_chess) "alice")).
Proof.
  assert (H : In "alice" (standard "alice")) by (left; reflexivity).
  destruct (logged_notification_leaves_the_listing standard H)
    as [_ [B [_ [K L]]]].
  split; [exact H|]. split; [rewrite B; left; reflexivity|].
  split; [exact K|]. rewrite L. intro I.
  repeat (destruct I as [I|I]; [discriminate|]). destruct I.
Defined.

(** C7.  The claim: a clear for u removes every notification addressed to u
    and leaves every other user's notification log as it was.  On the code
    it does neither.  The delete runs its term query on
    'notifications_index', an index without the keyword mapping lines 80-99
    give to 'notifications_index2'; whenever the engine has filed the names
    "alice" and "Alice" under the term "alice" and under no term "Alice", as
    the standard analyzer of a text field does, a clear for "alice" deletes
    the notification of "Alice", and a clear for "Alice" answers
    "Cleared notifications for Alice" and leaves that notification where it
    was. *)
Theorem clear_reaches_another_user (az : analyzer) :
  In "alice" (az "alice") ->
  In "alice" (az "Alice") ->
  ~ In "Alice" (az "Alice") ->
  log_of alice_and_Alice "Alice" = [document "Alice" (notification_of p1 1000)]
  /\ log_of (fst (clear_notifications alice_and_Alice "alice" az EsOk)) "Alice"
     = []
  /\ log_of (fst (clear_notifications alice_and_Alice "Alice" az EsOk)) "Alice"
     = [document "Alice" (notification_of p1 1000)]
  /\ snd (clear_notifications alice_and_Alice "Alice" az EsOk)
     = respond 200 (JsonMessage "Cleared notifications for Alice").
Proof.
  intros H1 H2 H3.
  assert (T1 : term_username az "alice"
                 (document "alice" (notification_of p1 1000)) = true)
    by (apply term_username_true; exact H1).
  assert (T2 : term_username az "alice"
                 (document "Alice" (notification_of p1 1000)) = true)
    by (apply term_username_true; exact H2).
  assert (T3 : term_username az "Alice"
                 (document "Alice" (notification_of p1 1000)) = false).
  { destruct (term_username az "Alice"
                (document "Alice" (notification_of p1 1000))) eqn:E;
      [|reflexivity].
    apply term_username_true in E. contradiction. }
  split; [reflexivity|]. split; [|split; [|reflexivity]].
  - unfold log_of, clear_notifications. cbn [fst notifications_index
      with_notifications]. unfold delete_by_username.
    change (notifications_index alice_and_Alice)
      with [document "alice" (notification_of p1 1000);
            document "Alice" (notification_of p1 1000)].
    cbn [filter]. now rewrite T1, T2.
  - unfold log_of, clear_notifications. cbn [fst notifications_index
      with_notifications]. unfold delete_by_username.
    change (notifications_index alice_and_Alice)
      with [document "alice" (notification_of p1 1000);
            document "Alice" (notification_of p1 1000)].
    cbn [filter]. rewrite T3.
    now destruct (term_username az "Alice"
                    (document "alice" (notification_of p1 1000))).
Qed.

Lemma clear_reaches_another_user_witness :
  In "alice" (standard "alice")
  /\ In "alice" (standard "Alice")
  /\ ~ In "Alice" (standard "Alice")
  /\ log_of alice_and_Alice "Alice"
     = [document "Alice" (notification_of p1 1000)]
  /\ log_of (fst (clear_notifications alice_and_Alice "alice" standard EsOk))
       "Alice"
     = []
  /\ log_of (fst (clear_notifications alice_and_Alice "Alice" standard EsOk))
       "Alice"
     = [document "Alice" (notification_of p1 1000)]
  /\ snd (clear_notifications alice_and_Alice "Alice" standard EsOk)
     = respond 200 (JsonMessage "Cleared notifications for Alice").
Proof.
  assert (H1 : In "alice" (standard "alice")) by (left; reflexivity).
  assert (H2 : In "alice" (standard "Alice")) by (left; reflexivity).
  assert (H3 : ~ In "Alice" (standard "Alice")).
  { intros [E|[]]. discriminate. }
  split; [exact H1|]. split; [exact H2|]. split; [exact H3|].
  exact (clear_reaches_another_user standard H1 H2 H3).
Defined.

(** C8.  Each of the four subscription handlers leaves, when it is run a
    second time with the same arguments, the state its first run left: the
    two routes POST /subscribe and POST /unsubscribe, and the socket events
    [subscribeToTopic] and [unsubscribeFromTopic]. *)
Theorem subscribe_unsubscribe_idempotent
  (st : State) (u t : jsval) (sid : string) :
  fst (step (fst (step st (PostSubscribe u t))) (PostSubscribe u t))
  = fst (step st (PostSubscribe u t))
  /\ fst (step (fst (step st (PostUnsubscribe u t))) (PostUnsubscribe u t))
     = fst (step st (PostUnsubscribe u t))
  /\ fst (step (fst (step st (SubscribeToTopic sid t))) (SubscribeToTopic sid t))
     = fst (step st (SubscribeToTopic sid t))
  /\ fst (step (fst (step st (UnsubscribeFromTopic sid t)))
            (UnsubscribeFromTopic sid t))
     = fst (step st (UnsubscribeFromTopic sid t)).
Proof.
  split; [|split; [|split]].
  - cbn [step]. unfold post_subscribe.
    destruct (negb (truthy u) || negb (truthy t)); reflexivity.
  - cbn [step]. apply post_unsubscribe_again.
  - apply step_subscribe_again.
  - apply step_unsubscribe_again.
Qed.

(** C9.  When the post is stored, a refused write of one subscriber's
    notification stops nothing: POST /posts answers 201, emits newPost to the
    room of every subscriber in the order of the loop, and stores the
    document of every subscriber whose own write is accepted. *)
Theorem fan_out_survives_refused_writes
  (st : State) (req : PostsRequest) (env : PublishEnv) :
  post_stored env = EsOk ->
  response (snd (post_posts st req env))
  = Some {| status := 201; body := JsonIndexResponse |}
  /\ ended (snd (post_posts st req env)) = Normal
  /\ emitted (snd (post_posts st req env))
     = map (fun u => newPost u (notification_of req (clock env)))
         (subscribersOf (userSubscriptions st) (topic req))
  /\ notifications_index (fst (post_posts st req env))
     = notifications_index st
         ++ map (fun u => document u (notification_of req (clock env)))
              (filter (stored_ok (notification_stored env))
                 (subscribersOf (userSubscriptions st) (topic req)))
  /\ (forall u,
        subscribed (userSubscriptions st) u (topic req) = true ->
        In (newPost u (notification_of req (clock env)))
          (emitted (snd (post_posts st req env)))
        /\ (stored_ok (notification_stored env) u = true ->
            In (document u (notification_of req (clock env)))
              (log_of (fst (post_posts st req env)) u))).
Proof.
  intro H. rewrite (post_posts_stored _ _ _ H). simpl.
  repeat split; try reflexivity.
  - apply in_map_iff. exists u. split; [reflexivity|].
    now apply subscribersOf_In.
  - intro Ho. unfold log_of. simpl. apply filter_In. split.
    + apply in_or_app. right. apply in_map_iff. exists u.
      split; [reflexivity|]. apply filter_In.
      split; [now apply subscribersOf_In | assumption].
    + apply filed_under_true. reflexivity.
Qed.

Lemma fan_out_survives_refused_writes_witness :
  post_stored (alice_refused 2000) = EsOk
  /\ stored_ok (notification_stored (alice_refused 2000)) "alice" = false
  /\ response (snd (post_posts after_p1 p2 (alice_refused 2000)))
     = Some {| status := 201; body := JsonIndexResponse |}
  /\ map room (emitted (snd (post_posts after_p1 p2 (alice_refused 2000))))
     = [JString "7"; JString "alice"; JString "carol"]
  /\ map Doc.username
       (notifications_index (fst (post_posts after_p1 p2 (alice_refused 2000))))
     = ["7"; "alice"; "carol"; "7"; "carol"].
Proof.
  destruct (fan_out_survives_refused_writes after_p1 p2 (alice_refused 2000)
              eq_refl) as [R [_ [E [I _]]]].
  split; [reflexivity|]. split; [reflexivity|]. split; [exact R|].
  split; [rewrite E | rewrite I]; reflexivity.
Defined.

(** C10.  A [subscribeToTopic] on a socket whose username is not set puts
    the socket into the room of the topic and leaves [userSubscriptions] as
    it was; from then on, whatever events follow, the registry and the
    notification index are the ones the server would have had without that
    event. *)
Theorem unbound_subscribe_creates_no_subscription
  (st : State) (sid : string) (s : Socket.t) (t : jsval) :
  find_socket (sockets st) sid = Some s ->
  truthy (Socket.username s) = false ->
  userSubscriptions (fst (step st (SubscribeToTopic sid t)))
  = userSubscriptions st
  /\ find_socket (sockets (fst (step st (SubscribeToTopic sid t)))) sid
     = Some (join s t)
  /\ In sid (receivers (fst (step st (SubscribeToTopic sid t))) t)
  /\ (forall evs,
        userSubscriptions (run (fst (step st (SubscribeToTopic sid t))) evs)
        = userSubscriptions (run st evs)
        /\ notifications_index
             (run (fst (step st (SubscribeToTopic sid t))) evs)
           = notifications_index (run st evs)).
Proof.
  intros F T. pose proof (find_socket_id _ _ _ F) as I. subst sid.
  cbn [step]. unfold on_socket. rewrite F.
  pose proof (unbound_subscribe_same st s t F T) as R.
  assert (J : find_socket (sockets (fst (subscribeToTopic st s t)))
                (Socket.id s) = Some (join s t)).
  { rewrite subscribeToTopic_sockets. now apply find_put_socket. }
  split; [apply R|]. split; [exact J|]. split.
  - apply (find_socket_receives _ _ _ _ J). cbn [Socket.rooms join].
    now rewrite set_has_add, same_value_zero_refl, orb_true_r.
  - intro evs. pose proof (run_same_but_rooms evs _ _ R) as [Es [_ [En _]]].
    now split.
Qed.

Lemma unbound_subscribe_creates_no_subscription_witness :
  find_socket (sockets three_subscribers) "s4" = Some dave_socket
  /\ truthy (Socket.username dave_socket) = false
  /\ userSubscriptions (fst (step three_subscribers (SubscribeToTopic "s4" sports)))
     = userSubscriptions three_subscribers
  /\ find_socket
       (sockets (fst (step three_subscribers (SubscribeToTopic "s4" sports))))
       "s4"
     = Some (join dave_socket sports)
  /\ In "s4"
       (receivers (fst (step three_subscribers (SubscribeToTopic "s4" sports)))
          sports)
  /\ map Doc.username
       (notifications_index
          (run (fst (step three_subscribers (SubscribeToTopic "s4" sports)))
             [PostPosts p1 (all_stored 1000)]))
     = ["7"; "alice"; "carol"].
Proof.
  destruct (unbound_subscribe_creates_no_subscription three_subscribers "s4"
              dave_socket sports eq_refl eq_refl) as [R [J [G N]]].
  split; [reflexivity|]. split; [reflexivity|]. split; [exact R|].
  split; [exact J|]. split; [exact G|].
  destruct (N [PostPosts p1 (all_stored 1000)]) as [_ E].
  rewrite E. reflexivity.
Defined.

End Properties.

(** ** Further facts: the shape of the registry along a run *)

Module MoreFacts.
Import JS Elastic Server Related Listing JSFacts ElasticFacts ServerFacts.

Lemma own_get_pair (o : object) (k : string) (set : jsset) :
  own_get o k = Some set -> In (k, set) o.
Proof.
  induction o as [|[k0 s0] o IH]; simpl; [discriminate|].
  destruct (String.eqb k0 k) eqn:E.
  - apply String.eqb_eq in E. intros [= ->]. left. now subst.
  - intro H. right. now apply IH.
Qed.

Lemma pair_own_get (o : object) (k : string) (set : jsset) :
  NoDup (map fst o) -> In (k, set) o -> own_get o k = Some set.
Proof.
  induction o as [|[k0 s0] o IH]; simpl; intros N H; [contradiction|].
  inversion N as [|? ? Nk No]; subst.
  destruct H as [H|H].
  - inversion H; subst. now rewrite String.eqb_refl.
  - destruct (String.eqb k0 k) eqn:E.
    + apply String.eqb_eq in E. subst. exfalso. apply Nk.
      apply in_map_iff. now exists (k, set).
    + now apply IH.
Qed.

Lemma keys_own_put (o : object) (k : string) (s : jsset) :
  map fst (own_put o k s)
  = match own_get o k with
    | Some _ => map fst o
    | None => map fst o ++ [k]
    end.
Proof.
  induction o as [|[k0 s0] o IH]; simpl; [reflexivity|].
  destruct (String.eqb k0 k) eqn:E; simpl.
  - reflexivity.
  - rewrite IH. now destruct (own_get o k).
Qed.

Lemma pair_own_put (o : object) (k k' : string) (s s' : jsset) :
  In (k', s') (own_put o k s) -> (k' = k /\ s' = s) \/ In (k', s') o.
Proof.
  induction o as [|[k0 s0] o IH]; simpl.
  - intros [H|[]]. inversion H. now left.
  - destruct (String.eqb k0 k) eqn:E; simpl.
    + apply String.eqb_eq in E. subst. intros [H|H].
      * inversion H. now left.
      * right. now right.
    + intros [H|H].
      * right. now left.
      * destruct (IH H) as [L|R]; [now left | right; now right].
Qed.

Lemma NoDup_set_add (set : jsset) (t : jsval) :
  NoDup set -> NoDup (set_add set t).
Proof.
  intro N. unfold set_add. destruct (set_has set t) eqn:H; [assumption|].
  apply NoDup_app; [assumption | repeat constructor; intros [] |].
  intros x Hx [<-|[]]. apply set_has_In in Hx. congruence.
Qed.

Lemma NoDup_set_delete (set : jsset) (t : jsval) :
  NoDup set -> NoDup (set_delete set t).
Proof. intro N. unfold set_delete. now apply NoDup_filter. Qed.

Lemma truthy_nonempty (v : jsval) : truthy v = true -> to_string v <> "".
Proof.
  destruct v as [|x]; simpl; [discriminate|].
  intros H E. subst. discriminate.
Qed.

Lemma registry_ok_replace (o : object) (k : string) (set s' : jsset) :
  registry_ok o -> own_get o k = Some set -> NoDup s' ->
  registry_ok (own_put o k s').
Proof.
  intros [N A] G D. split.
  - now rewrite keys_own_put, G.
  - intros k' x H. apply pair_own_put in H. destruct H as [[-> ->]|H].
    + destruct (A k set (own_get_pair _ _ _ G)) as [A1 [A2 _]]. auto.
    + now apply A.
Qed.

Lemma registry_ok_new (o : object) (k : string) (s' : jsset) :
  registry_ok o -> own_get o k = None -> k <> "" -> inherited k = false ->
  NoDup s' -> registry_ok (own_put o k s').
Proof.
  intros [N A] G E I D. split.
  - rewrite keys_own_put, G. apply NoDup_app; [assumption | | ].
    + repeat constructor. intros [].
    + intros x Hx [<-|[]]. apply own_get_In in Hx. congruence.
  - intros k' x H. apply pair_own_put in H. destruct H as [[-> ->]|H].
    + auto.
    + now apply A.
Qed.

Lemma step_registry_change (st : State) (e : event) :
  registry_change (userSubscriptions st) (userSubscriptions (fst (step st e))).
Proof.
  destruct e as [sid|sid w|sid t|sid t|sid|req env|w az o|w az o|w t|w t];
    cbn [step].
  - unfold connection. destruct (find_socket (sockets st) sid); constructor.
  - unfold on_socket. destruct (find_socket (sockets st) sid); constructor.
  - unfold on_socket.
    destruct (find_socket (sockets st) sid) as [s|]; [|constructor].
    rewrite subscribeToTopic_registry.
    destruct (truthy (Socket.username s)) eqn:T; [|constructor].
    destruct (own_get (userSubscriptions st) (to_string (Socket.username s)))
      as [set|] eqn:G.
    + now apply Added.
    + destruct (inherited (to_string (Socket.username s))) eqn:I;
        [constructor|].
      apply Created; auto. now apply truthy_nonempty.
  - unfold on_socket.
    destruct (find_socket (sockets st) sid) as [s|]; [|constructor].
    rewrite unsubscribeFromTopic_registry.
    destruct (truthy (Socket.username s)); [|constructor].
    destruct (own_get (userSubscriptions st) (to_string (Socket.username s)))
      as [set|] eqn:G; [now apply Deleted | constructor].
  - unfold on_socket. destruct (find_socket (sockets st) sid); constructor.
  - destruct (post_posts_frame st req env) as [R _]. rewrite R. constructor.
  - destruct o; constructor.
  - destruct o; constructor.
  - unfold post_subscribe.
    destruct (negb (truthy w) || negb (truthy t)); constructor.
  - rewrite post_unsubscribe_registry.
    destruct (negb (truthy w) || negb (truthy t)); [constructor|].
    destruct (own_get (userSubscriptions st) (to_string w)) as [set|] eqn:G;
      [now apply Deleted | constructor].
Qed.

Lemma registry_change_ok (o o' : object) :
  registry_change o o' -> registry_ok o -> registry_ok o'.
Proof.
  intros C K. destruct C as [|k set t G|k set t G|k t G E I].
  - assumption.
  - apply (registry_ok_replace _ _ set); auto.
    apply NoDup_set_add. destruct K as [_ A].
    now apply (A k set (own_get_pair _ _ _ G)).
  - apply (registry_ok_replace _ _ set); auto.
    apply NoDup_set_delete. destruct K as [_ A].
    now apply (A k set (own_get_pair _ _ _ G)).
  - apply registry_ok_new; auto. repeat constructor. intros [].
Qed.

Lemma registry_change_keys (o o' : object) (k : string) :
  registry_change o o' -> In k (map fst o) -> In k (map fst o').
Proof.
  intros C H. destruct C as [|k0 set t G|k0 set t G|k0 t G E I];
    try assumption; rewrite keys_own_put, G; try assumption.
  apply in_or_app. now left.
Qed.

(** A property of states that every step keeps holds along every run. *)
Lemma run_invariant (P : State -> Prop) :
  (forall st e, P st -> P (fst (step st e))) ->
  forall evs st, P st -> P (run st evs).
Proof.
  intros S evs. induction evs as [|e evs IH]; intros st H; simpl.
  - assumption.
  - pose proof (S st e H) as H'. destruct (step st e) as [st' out].
    simpl in H'. destruct (ended out); [now apply IH | assumption].
Qed.

Lemma run_registry_ok (evs : list event) (st : State) :
  registry_ok (userSubscriptions st) ->
  registry_ok (userSubscriptions (run st evs)).
Proof.
  apply (run_invariant (fun st => registry_ok (userSubscriptions st))).
  intros s e. apply registry_change_ok, step_registry_change.
Qed.

Lemma initial_registry_ok : registry_ok (userSubscriptions initial).
Proof. split; [constructor | intros k set []]. Qed.

(** *** The order of [for...in] and the exact effect of a publish *)

Lemma insert_index_perm (x : N * string) (l : list (N * string)) :
  Permutation (insert_index x l) (x :: l).
Proof.
  induction l as [|y l IH]; simpl.
  - apply Permutation_refl.
  - destruct (fst x <=? fst y)%N.
    + apply Permutation_refl.
    + apply perm_trans with (y :: x :: l).
      * now apply perm_skip.
      * apply perm_swap.
Qed.

Lemma sort_index_perm (l : list (N * string)) : Permutation (sort_index l) l.
Proof.
  induction l as [|x l IH]; simpl.
  - apply perm_nil.
  - apply perm_trans with (x :: sort_index l).
    + apply insert_index_perm.
    + now apply perm_skip.
Qed.

Lemma index_keys_filter (ks : list string) :
  map snd (index_keys ks) = filter is_index ks.
Proof.
  unfold is_index. induction ks as [|k ks IH]; simpl; [reflexivity|].
  destruct (array_index k); simpl; now rewrite IH.
Qed.

Lemma filter_split_perm (A : Type) (p : A -> bool) (l : list A) :
  Permutation (filter p l ++ filter (fun x => negb (p x)) l) l.
Proof.
  induction l as [|x l IH]; simpl.
  - apply perm_nil.
  - destruct (p x); simpl.
    + now apply perm_skip.
    + apply Permutation_sym, Permutation_cons_app, Permutation_sym, IH.
Qed.

Lemma for_in_keys_perm (o : object) : Permutation (for_in_keys o) (map fst o).
Proof.
  unfold for_in_keys.
  apply perm_trans
    with (filter is_index (map fst o)
            ++ filter (fun k => negb (is_index k)) (map fst o)).
  - apply Permutation_app_tail. rewrite <- index_keys_filter.
    apply Permutation_map, sort_index_perm.
  - apply filter_split_perm.
Qed.

Lemma for_in_keys_NoDup (o : object) :
  NoDup (map fst o) -> NoDup (for_in_keys o).
Proof.
  intro N. apply (Permutation_NoDup (l := map fst o)); [|assumption].
  apply Permutation_sym, for_in_keys_perm.
Qed.

Lemma filter_filter (A : Type) (p q : A -> bool) (l : list A) :
  filter p (filter q l) = filter (fun x => q x && p x) l.
Proof.
  induction l as [|x l IH]; simpl; [reflexivity|].
  destruct (q x); simpl; [destruct (p x)|]; now rewrite IH.
Qed.

Lemma filter_map_document (u : string) (n : Notification.t)
  (l : list string) :
  filter (filed_under u) (map (fun x => document x n) l)
  = map (fun x => document x n) (filter (fun x => String.eqb x u) l).
Proof.
  induction l as [|x l IH]; simpl; [reflexivity|].
  unfold filed_under at 1. simpl.
  destruct (String.eqb x u); simpl; now rewrite IH.
Qed.

(** Among distinct names, the ones that pass a test and equal [u]. *)
Lemma filter_pick_none (p : string -> bool) (u : string) (l : list string) :
  p u = false \/ ~ In u l ->
  filter (fun x => String.eqb x u) (filter p l) = [].
Proof.
  intro H. rewrite filter_filter.
  induction l as [|x l IH]; simpl; [reflexivity|].
  destruct (String.eqb x u) eqn:E.
  - apply String.eqb_eq in E. subst x. destruct H as [H|H].
    + rewrite H. simpl. apply IH. now left.
    + exfalso. apply H. now left.
  - rewrite andb_false_r. apply IH. destruct H as [H|H]; [now left|].
    right. intro I. apply H. now right.
Qed.

Lemma filter_pick_one (p : string -> bool) (u : string) (l : list string) :
  NoDup l -> In u l -> p u = true ->
  filter (fun x => String.eqb x u) (filter p l) = [u].
Proof.
  intros N I T. induction l as [|x l IH]; simpl; [contradiction|].
  inversion N as [|? ? Nx Nl]; subst. destruct I as [->|I].
  - rewrite T. simpl. rewrite String.eqb_refl. f_equal.
    apply filter_pick_none. now right.
  - assert (E : String.eqb x u = false).
    { apply String.eqb_neq. intros ->. contradiction. }
    destruct (p x); simpl; [rewrite E|]; now apply IH.
Qed.

(** With distinct keys a stored publish adds, for each user, one document
    or none. *)
Lemma log_of_published (st : State) (req : PostsRequest) (env : PublishEnv)
  (u : string) :
  NoDup (map fst (userSubscriptions st)) ->
  post_stored env = EsOk ->
  log_of (fst (post_posts st req env)) u
  = log_of st u
      ++ (if subscribed (userSubscriptions st) u (topic req)
             && stored_ok (notification_stored env) u
          then [document u (notification_of req (clock env))]
          else []).
Proof.
  intros N P. rewrite (post_posts_stored _ _ _ P). unfold log_of. simpl.
  rewrite filter_app. f_equal.
  rewrite filter_map_document.
  destruct (subscribed (userSubscriptions st) u (topic req)) eqn:S.
  - destruct (stored_ok (notification_stored env) u) eqn:O; simpl.
    + rewrite filter_pick_one; auto.
      * apply NoDup_filter. now apply for_in_keys_NoDup.
      * now apply subscribersOf_In.
    + rewrite filter_pick_none; [reflexivity | now left].
  - simpl. rewrite filter_pick_none; [reflexivity|]. right.
    intro I. apply subscribersOf_In in I. congruence.
Qed.

Lemma emitted_published (st : State) (req : PostsRequest) (env : PublishEnv)
  (u : string) :
  NoDup (map fst (userSubscriptions st)) ->
  post_stored env = EsOk ->
  filter (fun e => same_value_zero (room e) (JString u))
    (emitted (snd (post_posts st req env)))
  = if subscribed (userSubscriptions st) u (topic req)
    then [newPost u (notification_of req (clock env))]
    else [].
Proof.
  intros N P. rewrite (post_posts_stored _ _ _ P). simpl.
  assert (M : forall l,
             filter (fun e => same_value_zero (room e) (JString u))
               (map (fun x => newPost x (notification_of req (clock env))) l)
             = map (fun x => newPost x (notification_of req (clock env)))
                 (filter (fun x => String.eqb x u) l)).
  { induction l as [|x l IH]; simpl; [reflexivity|].
    destruct (String.eqb x u); simpl; now rewrite IH. }
  rewrite M. unfold subscribersOf.
  destruct (subscribed (userSubscriptions st) u (topic req)) eqn:S.
  - rewrite filter_pick_one; auto.
    + now apply for_in_keys_NoDup.
    + apply subscribersOf_In in S. unfold subscribersOf in S.
      apply filter_In in S. tauto.
  - rewrite filter_pick_none; [reflexivity | now left].
Qed.

(** *** The registry as a relation between users and topics *)

Lemma subscribed_own (o : object) (k : string) (set : jsset) (x : jsval) :
  own_get o k = Some set -> subscribed o k x = set_has set x.
Proof. unfold subscribed. now intros ->. Qed.

Lemma subscribed_none (o : object) (k : string) (x : jsval) :
  own_get o k = None -> subscribed o k x = false.
Proof. unfold subscribed. now intros ->. Qed.

Lemma subscribed_added (o : object) (k u : string) (t x : jsval) :
  inherited k = false ->
  subscribed
    (match own_get o k with
     | Some set => own_put o k (set_add set t)
     | None => if inherited k then o else own_put o k [t]
     end) u x
  = subscribed o u x || (String.eqb u k && same_value_zero x t).
Proof.
  intro I. rewrite I. destruct (own_get o k) as [set|] eqn:G;
    rewrite subscribed_put; destruct (String.eqb u k) eqn:E;
    try (now rewrite orb_false_r); apply String.eqb_eq in E; subst u.
  - now rewrite set_has_add, (subscribed_own _ _ _ _ G).
  - rewrite (subscribed_none _ _ _ G). unfold set_has. simpl.
    now rewrite orb_false_r.
Qed.

Lemma subscribed_deleted (o : object) (k u : string) (t x : jsval) :
  subscribed
    (match own_get o k with
     | Some set => own_put o k (set_delete set t)
     | None => o
     end) u x
  = subscribed o u x && negb (String.eqb u k && same_value_zero t x).
Proof.
  destruct (own_get o k) as [set|] eqn:G.
  - rewrite subscribed_put. destruct (String.eqb u k) eqn:E.
    + apply String.eqb_eq in E. subst u.
      now rewrite set_has_delete, (subscribed_own _ _ _ _ G).
    + now rewrite andb_true_r.
  - destruct (String.eqb u k) eqn:E.
    + apply String.eqb_eq in E. subst u.
      now rewrite (subscribed_none _ _ _ G).
    + now rewrite andb_true_r.
Qed.

(** *** Rooms *)

Lemma receivers_In (st : State) (sid : string) (r : jsval) :
  In sid (receivers st r) <->
  exists s, In s (sockets st) /\ Socket.id s = sid
            /\ set_has (Socket.rooms s) r = true.
Proof.
  unfold receivers. rewrite in_map_iff. split.
  - intros [s [E H]]. apply filter_In in H. exists s. tauto.
  - intros [s [H [E R]]]. exists s. split; [assumption|].
    apply filter_In. tauto.
Qed.

Lemma find_socket_member (l : list Socket.t) (sid : string) (s : Socket.t) :
  find_socket l sid = Some s -> In s l.
Proof.
  induction l as [|x l IH]; simpl; [discriminate|].
  destruct (String.eqb (Socket.id x) sid).
  - intros [= ->]. now left.
  - intro H. right. now apply IH.
Qed.

(** Replacing the socket found under an id by one with more rooms loses no
    member of the list up to rooms. *)
Lemma put_socket_keeps (l : list Socket.t) (s s' x : Socket.t) :
  find_socket l (Socket.id s) = Some s ->
  Socket.id s' = Socket.id s ->
  In x l ->
  In x (put_socket l s') \/ (x = s /\ In s' (put_socket l s')).
Proof.
  intros F I H. induction l as [|y l IH]; simpl in *; [contradiction|].
  rewrite I. destruct (String.eqb (Socket.id y) (Socket.id s)) eqn:E.
  - inversion F; subst y. destruct H as [->|H].
    + right. split; [reflexivity | now left].
    + left. now right.
  - destruct H as [->|H].
    + left. now left.
    + destruct (IH F H) as [K|[K1 K2]].
      * left. now right.
      * right. split; [assumption | now right].
Qed.

Lemma drop_socket_gone (l : list Socket.t) (sid : string) (s : Socket.t) :
  In s (drop_socket l sid) -> Socket.id s <> sid.
Proof.
  unfold drop_socket. intro H. apply filter_In in H. destruct H as [_ H].
  apply negb_true_iff in H. now apply String.eqb_neq.
Qed.

Lemma find_socket_none (l : list Socket.t) (sid : string) (s : Socket.t) :
  find_socket l sid = None -> In s l -> Socket.id s <> sid.
Proof.
  induction l as [|x l IH]; simpl; [intros _ []|].
  destruct (String.eqb (Socket.id x) sid) eqn:E; [discriminate|].
  intros F [->|H]; [now apply String.eqb_neq | now apply IH].
Qed.

(** *** The post index *)

Lemma index_post_In (idx : list Post.t) (p : Post.t) : In p (index_post idx p).
Proof.
  induction idx as [|q r IH]; simpl; [now left|].
  destruct (Post.id p) as [|a]; [now right|].
  destruct (Post.id q) as [|b]; [now right|].
  destruct (String.eqb a b); [now left | now right].
Qed.

Lemma index_post_again (idx : list Post.t) (p : Post.t) (a : string) :
  Post.id p = JString a -> index_post (index_post idx p) p = index_post idx p.
Proof.
  intro I. induction idx as [|q r IH].
  - simpl. rewrite I. now rewrite String.eqb_refl.
  - cbn [index_post]. rewrite I. destruct (Post.id q) as [|b] eqn:Q.
    + cbn [index_post]. rewrite I, Q. now rewrite IH.
    + destruct (String.eqb a b) eqn:E; cbn [index_post]; rewrite I.
      * now rewrite String.eqb_refl.
      * rewrite Q, E. now rewrite IH.
Qed.

Lemma index_post_replace (idx : list Post.t) (p q : Post.t) (a : string) :
  Post.id p = JString a -> Post.id q = JString a ->
  index_post (index_post idx p) q = index_post idx q.
Proof.
  intros Ip Iq. induction idx as [|x r IH].
  - simpl. rewrite Ip, Iq. now rewrite String.eqb_refl.
  - cbn [index_post]. rewrite Ip, Iq. destruct (Post.id x) as [|b] eqn:X.
    + cbn [index_post]. rewrite Iq, X. now rewrite IH.
    + destruct (String.eqb a b) eqn:E; cbn [index_post]; rewrite Iq.
      * now rewrite Ip, String.eqb_refl.
      * rewrite X, E. now rewrite IH.
Qed.

(** *** Documents stay unread and under a key *)

Lemma step_users (st : State) (e : event) (k : string) :
  In k (users st) -> In k (users (fst (step st e))).
Proof. apply registry_change_keys, step_registry_change. Qed.

Lemma step_index_ok (st : State) (e : event) :
  index_ok st -> index_ok (fst (step st e)).
Proof.
  intros K d H. rewrite step_index in H.
  assert (Old : In d (notifications_index st) ->
                Doc.read d = false /\ In (Doc.username d) (users (fst (step st e)))).
  { intro O. destruct (K d O) as [R U]. split; [assumption|].
    now apply step_users. }
  destruct e as [sid|sid w|sid t|sid t|sid|req env|w az o|w az o|w t|w t]; auto.
  - destruct (post_stored env) as [|msg] eqn:P.
    + rewrite (post_posts_stored _ _ _ P) in H. simpl in H.
      apply in_app_or in H. destruct H as [H|H]; [now apply Old|].
      apply in_map_iff in H. destruct H as [u [<- Hu]].
      apply filter_In in Hu. destruct Hu as [Hu _].
      split; [reflexivity|]. apply step_users. simpl. unfold users.
      unfold subscribersOf in Hu. apply filter_In in Hu.
      destruct Hu as [Hu _]. now apply for_in_keys_In.
    + unfold post_posts in H. rewrite P in H. now apply Old.
  - destruct o; [|now apply Old].
    unfold delete_by_username in H. apply filter_In in H. now apply Old.
Qed.

Lemma run_index_ok (evs : list event) : index_ok (run initial evs).
Proof.
  apply (run_invariant index_ok).
  - apply step_index_ok.
  - intros d [].
Qed.

(** *** How a handler can end *)

Lemma post_posts_ended (st : State) (req : PostsRequest) (env : PublishEnv) :
  ended (snd (post_posts st req env)) = Normal.
Proof.
  unfold post_posts. destruct (post_stored env); [|reflexivity].
  destruct (fan_out (userSubscriptions st) (for_in_keys (userSubscriptions st))
              (topic req) (notification_of req (clock env))
              (notification_stored env) (notifications_index st) [])
    as [[idx out] c].
  now destruct c.
Qed.

(** *** Registration and delivery *)

Lemma register_found (st : State) (sid : string) (s : Socket.t) (w : jsval) :
  find_socket (sockets st) sid = Some s ->
  fst (step st (Register sid w))
  = with_sockets st
      (put_socket (sockets st)
         (join {| Socket.id := Socket.id s;
                  Socket.username := w;
                  Socket.rooms := Socket.rooms s |} w))
  /\ find_socket (sockets (fst (step st (Register sid w)))) sid
     = Some (join {| Socket.id := Socket.id s;
                     Socket.username := w;
                     Socket.rooms := Socket.rooms s |} w).
Proof.
  intro F. pose proof (find_socket_id _ _ _ F) as I. subst sid.
  cbn [step]. unfold on_socket. rewrite F. unfold register. cbn [fst].
  split; [reflexivity|]. cbn [sockets with_sockets].
  now apply find_put_socket.
Qed.

Lemma subscribed_delivers (st : State) (req : PostsRequest) (env : PublishEnv)
  (u : string) :
  subscribed (userSubscriptions st) u (topic req) = true ->
  post_stored env = EsOk ->
  In (newPost u (notification_of req (clock env)))
    (emitted (snd (post_posts st req env)))
  /\ (notification_stored env u = EsOk ->
      In (document u (notification_of req (clock env)))
        (log_of (fst (post_posts st req env)) u)).
Proof.
  intros S P. rewrite (post_posts_stored _ _ _ P). simpl. split.
  - apply in_map_iff. exists u. split; [reflexivity|].
    now apply subscribersOf_In.
  - intro O. unfold log_of. simpl.
    apply filter_In. split.
    + apply in_or_app. right. apply in_map_iff. exists u.
      split; [reflexivity|]. apply filter_In.
      split; [now apply subscribersOf_In|]. unfold stored_ok. now rewrite O.
    + apply filed_under_true. reflexivity.
Qed.

Lemma post_posts_receivers (st : State) (req : PostsRequest)
  (env : PublishEnv) (r : jsval) :
  receivers (fst (post_posts st req env)) r = receivers st r.
Proof.
  unfold receivers. destruct (post_posts_frame st req env) as [_ [S _]].
  now rewrite S.
Qed.

(** *** The subscription listing *)

Lemma get_subscriptions_own (st : State) (u : string) :
  inherited u = false ->
  get_subscriptions st u
  = match own_get (userSubscriptions st) u with
    | Some set => set
    | None => []
    end.
Proof.
  intro I. unfold get_subscriptions, get_prop.
  destruct (own_get (userSubscriptions st) u); [reflexivity|].
  now rewrite I.
Qed.

Lemma get_subscriptions_same (a b : State) (v : string) :
  own_get (userSubscriptions a) v = own_get (userSubscriptions b) v ->
  get_subscriptions a v = get_subscriptions b v.
Proof. intro E. unfold get_subscriptions, get_prop. now rewrite E. Qed.

Lemma newPost_inj (u v : string) (n : Notification.t) :
  newPost u n = newPost v n -> u = v.
Proof. unfold newPost. now intros [= ->]. Qed.

Lemma inherited_truthy (k : string) :
  inherited k = true -> truthy (JString k) = true.
Proof.
  intro I. simpl. destruct (String.eqb k "") eqn:E; [|reflexivity].
  apply String.eqb_eq in E. subst. discriminate.
Qed.

Lemma registry_ok_inherited (o : object) (k : string) :
  registry_ok o -> inherited k = true -> own_get o k = None.
Proof.
  intros [_ A] I. destruct (own_get o k) as [set|] eqn:G; [|reflexivity].
  destruct (A k set (own_get_pair _ _ _ G)) as [_ [C _]]. congruence.
Qed.

End MoreFacts.

(** ** Further properties of the handlers *)

Module Extras.
Import JS Elastic Server Related Scenario Listing Cases.
Import JSFacts ElasticFacts ServerFacts MoreFacts.

(** X2.  In a state reached from the initial one, a POST /posts whose post
    is stored adds for each user exactly one document when the user is
    subscribed to the topic and the write is accepted, and none otherwise;
    it emits to the user's room exactly once when the user is subscribed,
    and not at all otherwise. *)
Theorem publish_once_per_subscriber
  (evs : list event) (req : PostsRequest) (env : PublishEnv) (u : string) :
  post_stored env = EsOk ->
  log_of (fst (post_posts (run initial evs) req env)) u
  = log_of (run initial evs) u
      ++ (if subscribed (userSubscriptions (run initial evs)) u (topic req)
             && stored_ok (notification_stored env) u
          then [document u (notification_of req (clock env))]
          else [])
  /\ filter (fun e => same_value_zero (room e) (JString u))
       (emitted (snd (post_posts (run initial evs) req env)))
     = if subscribed (userSubscriptions (run initial evs)) u (topic req)
       then [newPost u (notification_of req (clock env))]
       else [].
Proof.
  intro P.
  destruct (run_registry_ok evs initial initial_registry_ok) as [N _].
  split; [now apply log_of_published | now apply emitted_published].
Qed.

Lemma publish_once_per_subscriber_witness :
  post_stored (alice_refused 2000) = EsOk
  /\ map Doc.postId
       (log_of (fst (post_posts (run initial history) p2 (alice_refused 2000)))
          "carol")
     = [JString "p1"; JString "p2"]
  /\ map Doc.postId
       (log_of (fst (post_posts (run initial history) p2 (alice_refused 2000)))
          "alice")
     = [JString "p1"]
  /\ List.length
       (filter (fun e => same_value_zero (room e) (JString "alice"))
          (emitted (snd (post_posts (run initial history) p2
                           (alice_refused 2000)))))
     = 1%nat.
Proof.
  destruct (publish_once_per_subscriber history p2 (alice_refused 2000)
              "carol" eq_refl) as [C _].
  destruct (publish_once_per_subscriber history p2 (alice_refused 2000)
              "alice" eq_refl) as [A E].
  split; [reflexivity|]. split; [rewrite C; reflexivity|].
  split; [rewrite A | rewrite E]; reflexivity.
Defined.

(** X3.  No handler removes a key from [userSubscriptions]: a user who once
    had an entry keeps it along every run, also after unsubscribing from
    every topic. *)
Theorem users_never_removed (st : State) (evs : list event) (k : string) :
  In k (users st) -> In k (users (run st evs)).
Proof.
  apply (run_invariant (fun s => In k (users s))).
  intros s e. apply step_users.
Qed.

Lemma users_never_removed_witness :
  In "alice" (users three_subscribers)
  /\ In "alice"
       (users (run three_subscribers
                 [PostUnsubscribe alice sports;
                  UnsubscribeFromTopic "s1" sports; Disconnect "s1"]))
  /\ get_subscriptions
       (run three_subscribers
          [PostUnsubscribe alice sports;
           UnsubscribeFromTopic "s1" sports; Disconnect "s1"]) "alice"
     = [].
Proof.
  assert (H : In "alice" (users three_subscribers)).
  { left. reflexivity. }
  split; [exact H|]. split; [|reflexivity].
  exact (users_never_removed three_subscribers
           [PostUnsubscribe alice sports;
            UnsubscribeFromTopic "s1" sports; Disconnect "s1"] "alice" H).
Defined.

(** X4.  A [subscribeToTopic] from a socket registered under a name that is
    not a property name of [Object.prototype] ends normally and adds exactly
    the pair (that name, topic): every other user and every other topic is
    subscribed afterwards exactly when it was before. *)
Theorem socket_subscribe_adds_exactly_the_pair
  (st : State) (sid : string) (s : Socket.t) (t : jsval) :
  find_socket (sockets st) sid = Some s ->
  truthy (Socket.username s) = true ->
  inherited (to_string (Socket.username s)) = false ->
  snd (step st (SubscribeToTopic sid t)) = silent
  /\ forall u x,
       subscribed (userSubscriptions (fst (step st (SubscribeToTopic sid t))))
         u x
       = subscribed (userSubscriptions st) u x
         || (String.eqb u (to_string (Socket.username s))
             && same_value_zero x t).
Proof.
  intros F T I. cbn [step]. unfold on_socket. rewrite F. split.
  - rewrite subscribeToTopic_output, T, I.
    now destruct (own_get (userSubscriptions st)
                    (to_string (Socket.username s))).
  - intros u x. rewrite subscribeToTopic_registry, T.
    now apply subscribed_added.
Qed.

Lemma socket_subscribe_adds_exactly_the_pair_witness :
  find_socket (sockets after_p1) "s1" = Some alice_socket
  /\ truthy (Socket.username alice_socket) = true
  /\ inherited (to_string (Socket.username alice_socket)) = false
  /\ subscribed
       (userSubscriptions
          (fst (step after_p1 (SubscribeToTopic "s1" (JString "chess")))))
       "alice" (JString "chess") = true
  /\ subscribed
       (userSubscriptions
          (fst (step after_p1 (SubscribeToTopic "s1" (JString "chess")))))
       "carol" (JString "chess") = false.
Proof.
  destruct (socket_subscribe_adds_exactly_the_pair after_p1 "s1" alice_socket
              (JString "chess") eq_refl eq_refl eq_refl) as [_ H].
  split; [reflexivity|]. split; [reflexivity|]. split; [reflexivity|].
  split; rewrite H; reflexivity.
Defined.

(** X5.  A POST /unsubscribe that carries a username and a topic removes
    exactly that pair, whoever sends it and whether or not a socket is bound
    to the user: every other user and every other topic is subscribed
    afterwards exactly when it was before. *)
Theorem http_unsubscribe_removes_exactly_the_pair
  (st : State) (username t : jsval) :
  truthy username = true ->
  truthy t = true ->
  forall u x,
    subscribed (userSubscriptions (fst (post_unsubscribe st username t))) u x
    = subscribed (userSubscriptions st) u x
      && negb (String.eqb u (to_string username) && same_value_zero t x).
Proof.
  intros Hu Ht u x. rewrite post_unsubscribe_registry, Hu, Ht. simpl.
  apply subscribed_deleted.
Qed.

Lemma http_unsubscribe_removes_exactly_the_pair_witness :
  truthy alice = true
  /\ truthy sports = true
  /\ sockets (with_sockets three_subscribers []) = []
  /\ subscribed
       (userSubscriptions
          (fst (post_unsubscribe
                  (with_sockets three_subscribers []) alice sports)))
       "alice" sports = false
  /\ subscribed
       (userSubscriptions
          (fst (post_unsubscribe
                  (with_sockets three_subscribers []) alice sports)))
       "carol" sports = true.
Proof.
  pose proof (http_unsubscribe_removes_exactly_the_pair
                (with_sockets three_subscribers []) alice sports
                eq_refl eq_refl) as H.
  split; [reflexivity|]. split; [reflexivity|]. split; [reflexivity|].
  split; rewrite H; reflexivity.
Defined.

(** X6.  An [unsubscribeFromTopic] from a registered socket takes the
    socket out of the room of the topic and removes exactly the pair
    (its username, topic) from the registry. *)
Theorem socket_unsubscribe_removes_exactly_the_pair
  (st : State) (sid : string) (s : Socket.t) (t : jsval) :
  find_socket (sockets st) sid = Some s ->
  truthy (Socket.username s) = true ->
  find_socket (sockets (fst (step st (UnsubscribeFromTopic sid t)))) sid
  = Some (leave s t)
  /\ set_has (Socket.rooms (leave s t)) t = false
  /\ forall u x,
       subscribed
         (userSubscriptions (fst (step st (UnsubscribeFromTopic sid t)))) u x
       = subscribed (userSubscriptions st) u x
         && negb (String.eqb u (to_string (Socket.username s))
                  && same_value_zero t x).
Proof.
  intros F T. pose proof (find_socket_id _ _ _ F) as I. subst sid.
  cbn [step]. unfold on_socket. rewrite F.
  destruct (unsubscribeFromTopic_rest st s t) as [S _]. split.
  - rewrite S. now apply find_put_socket.
  - split.
    + cbn [Socket.rooms leave].
      now rewrite set_has_delete, same_value_zero_refl, andb_false_r.
    + intros u x. rewrite unsubscribeFromTopic_registry, T.
      apply subscribed_deleted.
Qed.

Lemma socket_unsubscribe_removes_exactly_the_pair_witness :
  find_socket (sockets after_p1) "s1" = Some alice_socket
  /\ truthy (Socket.username alice_socket) = true
  /\ Socket.rooms (leave alice_socket sports) = [JString "s1"; alice]
  /\ subscribed
       (userSubscriptions (fst (step after_p1 (UnsubscribeFromTopic "s1" sports))))
       "alice" sports = false
  /\ subscribed
       (userSubscriptions (fst (step after_p1 (UnsubscribeFromTopic "s1" sports))))
       "carol" sports = true.
Proof.
  destruct (socket_unsubscribe_removes_exactly_the_pair after_p1 "s1"
              alice_socket sports eq_refl eq_refl) as [_ [_ H]].
  split; [reflexivity|]. split; [reflexivity|]. split; [reflexivity|].
  split; rewrite H; reflexivity.
Defined.

(** X7.  Subscribing over the socket delivers: after a connected socket
    registers as u (a non-empty name that is no property name of
    [Object.prototype]) and sends [subscribeToTopic] for t, a POST /posts
    with topic t whose writes are accepted files a notification with the
    post's id, message and publish time under u in the notification index,
    emits newPost to the room of u, and the socket is in that room. *)
Theorem socket_subscription_delivers
  (st : State) (sid : string) (s : Socket.t) (u : string) (t : jsval)
  (req : PostsRequest) (env : PublishEnv) :
  find_socket (sockets st) sid = Some s ->
  u <> "" ->
  inherited u = false ->
  topic req = t ->
  post_stored env = EsOk ->
  notification_stored env u = EsOk ->
  (exists d,
      In d (log_of
              (fst (post_posts
                      (fst (step (fst (step st (Register sid (JString u))))
                              (SubscribeToTopic sid t))) req env)) u)
      /\ Doc.postId d = id req
      /\ Doc.message d = message_of req
      /\ Doc.timestamp d = clock env)
  /\ (exists e,
         In e (emitted
                 (snd (post_posts
                         (fst (step (fst (step st (Register sid (JString u))))
                                 (SubscribeToTopic sid t))) req env)))
         /\ room e = JString u
         /\ Notification.postId (payload e) = id req
         /\ In sid
              (receivers
                 (fst (post_posts
                         (fst (step (fst (step st (Register sid (JString u))))
                                 (SubscribeToTopic sid t))) req env))
                 (room e))).
Proof.
  intros F Hu I Ht P O.
  destruct (register_found st sid s (JString u) F) as [_ F1].
  set (st1 := fst (step st (Register sid (JString u)))) in *.
  set (s1 := join {| Socket.id := Socket.id s;
                     Socket.username := JString u;
                     Socket.rooms := Socket.rooms s |} (JString u)) in *.
  assert (T1 : truthy (Socket.username s1) = true).
  { simpl. apply negb_true_iff. now apply String.eqb_neq. }
  assert (Sub : subscribed
                  (userSubscriptions (fst (step st1 (SubscribeToTopic sid t))))
                  u (topic req) = true).
  { cbn [step]. unfold on_socket. rewrite F1.
    rewrite subscribeToTopic_registry, T1. cbn [s1 Socket.username join to_string].
    rewrite (subscribed_added _ u u t (topic req) I).
    rewrite String.eqb_refl, Ht, same_value_zero_refl. apply orb_true_r. }
  assert (F2 : find_socket (sockets (fst (step st1 (SubscribeToTopic sid t))))
                 sid = Some (join s1 t)).
  { pose proof (find_socket_id _ _ _ F1) as E. cbn [step]. unfold on_socket.
    rewrite F1, subscribeToTopic_sockets. rewrite <- E.
    apply find_put_socket; [now rewrite E | reflexivity]. }
  destruct (subscribed_delivers _ req env u Sub P) as [E D]. split.
  - exists (document u (notification_of req (clock env))).
    split; [now apply D | repeat split].
  - exists (newPost u (notification_of req (clock env))).
    split; [exact E|]. split; [reflexivity|]. split; [reflexivity|].
    rewrite post_posts_receivers. apply (find_socket_receives _ _ _ _ F2).
    cbn [room newPost Socket.rooms join s1].
    now rewrite !set_has_add, same_value_zero_refl, orb_true_r.
Qed.

Lemma socket_subscription_delivers_witness :
  find_socket (sockets one_connected) "s1" = Some fresh_socket
  /\ "alice" <> ""
  /\ inherited "alice" = false
  /\ topic p1 = sports
  /\ post_stored (all_stored 1000) = EsOk
  /\ notification_stored (all_stored 1000) "alice" = EsOk
  /\ exists d,
       In d (log_of
               (fst (post_posts
                       (fst (step (fst (step one_connected (Register "s1" alice)))
                               (SubscribeToTopic "s1" sports)))
                       p1 (all_stored 1000))) "alice")
       /\ Doc.postId d = id p1
       /\ Doc.message d = message_of p1
       /\ Doc.timestamp d = clock (all_stored 1000).
Proof.
  assert (N : "alice" <> "") by discriminate.
  destruct (socket_subscription_delivers one_connected "s1" fresh_socket
              "alice" sports p1 (all_stored 1000)
              eq_refl N eq_refl eq_refl eq_refl eq_refl) as [D _].
  split; [reflexivity|]. split; [exact N|]. split; [reflexivity|].
  split; [reflexivity|]. split; [reflexivity|]. split; [reflexivity|].
  exact D.
Defined.

(** X8.  Rooms of users and rooms of topics share one name space: a socket
    that has not registered and sends [subscribeToTopic] with the name of a
    user u is, without any subscription of its own, in the room every
    newPost for u is emitted to. *)
Theorem topic_named_like_user_receives_their_posts
  (st : State) (sid : string) (s : Socket.t) (u : string)
  (req : PostsRequest) (env : PublishEnv) :
  find_socket (sockets st) sid = Some s ->
  truthy (Socket.username s) = false ->
  subscribed (userSubscriptions st) u (topic req) = true ->
  post_stored env = EsOk ->
  userSubscriptions (fst (step st (SubscribeToTopic sid (JString u))))
  = userSubscriptions st
  /\ exists e,
       In e (emitted
               (snd (post_posts
                       (fst (step st (SubscribeToTopic sid (JString u))))
                       req env)))
       /\ room e = JString u
       /\ payload e = notification_of req (clock env)
       /\ In sid
            (receivers
               (fst (post_posts
                       (fst (step st (SubscribeToTopic sid (JString u))))
                       req env))
               (room e)).
Proof.
  intros F T S P. pose proof (find_socket_id _ _ _ F) as I. subst sid.
  cbn [step]. unfold on_socket. rewrite F.
  assert (R : userSubscriptions (fst (subscribeToTopic st s (JString u)))
              = userSubscriptions st)
    by now rewrite subscribeToTopic_registry, T.
  split; [exact R|].
  assert (S' : subscribed
                 (userSubscriptions (fst (subscribeToTopic st s (JString u))))
                 u (topic req) = true) by now rewrite R.
  destruct (subscribed_delivers _ req env u S' P) as [E _].
  exists (newPost u (notification_of req (clock env))).
  split; [exact E|]. split; [reflexivity|]. split; [reflexivity|].
  rewrite post_posts_receivers.
  apply (find_socket_receives _ (Socket.id s) (join s (JString u))).
  - rewrite subscribeToTopic_sockets. now apply find_put_socket.
  - cbn [room newPost Socket.rooms join].
    now rewrite set_has_add, same_value_zero_refl, orb_true_r.
Qed.

Lemma topic_named_like_user_receives_their_posts_witness :
  find_socket (sockets three_subscribers) "s4" = Some dave_socket
  /\ truthy (Socket.username dave_socket) = false
  /\ subscribed (userSubscriptions three_subscribers) "alice" (topic p1) = true
  /\ post_stored (all_stored 1000) = EsOk
  /\ receivers three_subscribers alice = ["s1"]
  /\ receivers
       (fst (post_posts
               (fst (step three_subscribers (SubscribeToTopic "s4" alice)))
               p1 (all_stored 1000)))
       alice
     = ["s1"; "s4"]
  /\ exists e,
       In e (emitted
               (snd (post_posts
                       (fst (step three_subscribers (SubscribeToTopic "s4" alice)))
                       p1 (all_stored 1000))))
       /\ room e = alice
       /\ payload e = notification_of p1 (clock (all_stored 1000))
       /\ In "s4"
            (receivers
               (fst (post_posts
                       (fst (step three_subscribers
                               (SubscribeToTopic "s4" alice)))
                       p1 (all_stored 1000)))
               (room e)).
Proof.
  split; [reflexivity|]. split; [reflexivity|]. split; [reflexivity|].
  split; [reflexivity|]. split; [reflexivity|]. split; [reflexivity|].
  exact (proj2 (topic_named_like_user_receives_their_posts three_subscribers
                  "s4" dave_socket "alice" p1 (all_stored 1000)
                  eq_refl eq_refl eq_refl eq_refl)).
Defined.

(** X9.  [register] never takes a socket out of a room: a socket that
    registers again under another name is in the room of the new name, is
    bound to the new name, and still is in every room it was in, the room
    of its former name included. *)
Theorem register_keeps_rooms
  (st : State) (sid : string) (s : Socket.t) (w r : jsval) :
  find_socket (sockets st) sid = Some s ->
  In sid (receivers st r) ->
  In sid (receivers (fst (step st (Register sid w))) r)
  /\ In sid (receivers (fst (step st (Register sid w))) w)
  /\ exists s',
       find_socket (sockets (fst (step st (Register sid w)))) sid = Some s'
       /\ Socket.username s' = w.
Proof.
  intros F H. destruct (register_found st sid s w F) as [E F'].
  pose proof (find_socket_id _ _ _ F) as I.
  set (s' := join {| Socket.id := Socket.id s;
                     Socket.username := w;
                     Socket.rooms := Socket.rooms s |} w) in *.
  split; [|split].
  - apply receivers_In in H. destruct H as [x [Hx [Ix Rx]]].
    apply receivers_In. rewrite E. cbn [sockets with_sockets].
    rewrite <- I in F.
    destruct (put_socket_keeps (sockets st) s s' x F eq_refl Hx)
      as [K|[-> K]].
    + exists x. auto.
    + exists s'. split; [exact K|]. split; [exact I|].
      cbn [s' Socket.rooms join]. rewrite set_has_add, Rx. reflexivity.
  - apply (find_socket_receives _ _ _ _ F').
    cbn [s' Socket.rooms join].
    now rewrite set_has_add, same_value_zero_refl, orb_true_r.
  - exists s'. split; [exact F' | reflexivity].
Qed.

Lemma register_keeps_rooms_witness :
  find_socket (sockets after_p1) "s1" = Some alice_socket
  /\ In "s1" (receivers after_p1 alice)
  /\ In "s1"
       (receivers (fst (step after_p1 (Register "s1" (JString "mallory"))))
          alice)
  /\ In "s1"
       (receivers (fst (step after_p1 (Register "s1" (JString "mallory"))))
          (JString "mallory"))
  /\ exists s',
       find_socket
         (sockets (fst (step after_p1 (Register "s1" (JString "mallory")))))
         "s1" = Some s'
       /\ Socket.username s' = JString "mallory".
Proof.
  assert (H : In "s1" (receivers after_p1 alice)) by (left; reflexivity).
  split; [reflexivity|]. split; [exact H|].
  exact (register_keeps_rooms after_p1 "s1" alice_socket
           (JString "mallory") alice eq_refl H).
Defined.

(** X10.  After [disconnect] the socket is in no room, while the registry
    is what it was: a POST /posts after the disconnection stores and emits
    exactly what it would have stored and emitted before it. *)
Theorem disconnect_keeps_subscriptions
  (st : State) (sid : string) (req : PostsRequest) (env : PublishEnv) :
  (forall r, ~ In sid (receivers (fst (step st (Disconnect sid))) r))
  /\ userSubscriptions (fst (step st (Disconnect sid))) = userSubscriptions st
  /\ notifications_index (fst (post_posts (fst (step st (Disconnect sid))) req env))
     = notifications_index (fst (post_posts st req env))
  /\ emitted (snd (post_posts (fst (step st (Disconnect sid))) req env))
     = emitted (snd (post_posts st req env)).
Proof.
  cbn [step]. unfold on_socket.
  destruct (find_socket (sockets st) sid) as [s|] eqn:F.
  - pose proof (find_socket_id _ _ _ F) as I. unfold disconnect. cbn [fst].
    split.
    + intros r H. apply receivers_In in H. destruct H as [x [Hx [Ix _]]].
      cbn [sockets with_sockets] in Hx. rewrite I in Hx.
      now apply drop_socket_gone in Hx.
    + split; [reflexivity|].
      destruct (post_stored env) as [|msg] eqn:P.
      * rewrite !(post_posts_stored _ _ _ P). split; reflexivity.
      * unfold post_posts. rewrite P. split; reflexivity.
  - cbn [fst]. split; [|repeat split].
    intros r H. apply receivers_In in H. destruct H as [x [Hx [Ix _]]].
    now apply (find_socket_none _ _ _ F Hx).
Qed.

(** X11.  In every state reached from the initial one (empty registry,
    empty index), every document of the notification index is unread (no
    handler ever sets [read]) and is filed under a name that is a key of
    [userSubscriptions]. *)
Theorem documents_unread_and_keyed (evs : list event) (d : Doc.t) :
  In d (notifications_index (run initial evs)) ->
  Doc.read d = false /\ In (Doc.username d) (users (run initial evs)).
Proof. apply run_index_ok. Qed.

Lemma documents_unread_and_keyed_witness :
  In (document "alice" (notification_of p1 1000))
    (notifications_index (run initial history))
  /\ Doc.read (document "alice" (notification_of p1 1000)) = false
  /\ In (Doc.username (document "alice" (notification_of p1 1000)))
       (users (run initial history)).
Proof.
  assert (H : In (document "alice" (notification_of p1 1000))
                (notifications_index (run initial history))).
  { right. left. reflexivity. }
  split; [exact H|].
  exact (documents_unread_and_keyed history _ H).
Defined.

(** X14.  For a username that is no property name of [Object.prototype],
    GET /subscriptions/:username lists a topic exactly when a stored
    POST /posts on that topic emits newPost to that user. *)
Theorem listing_matches_fan_out
  (st : State) (u : string) (req : PostsRequest) (env : PublishEnv) :
  inherited u = false ->
  post_stored env = EsOk ->
  In (topic req) (get_subscriptions st u)
  <-> In (newPost u (notification_of req (clock env)))
        (emitted (snd (post_posts st req env))).
Proof.
  intros I P. rewrite (post_posts_stored _ _ _ P). cbn [snd emitted].
  rewrite (get_subscriptions_own _ _ I), in_map_iff.
  assert (S : subscribed (userSubscriptions st) u (topic req) = true
              <-> In (topic req)
                    match own_get (userSubscriptions st) u with
                    | Some set => set
                    | None => []
                    end).
  { unfold subscribed. destruct (own_get (userSubscriptions st) u).
    - apply set_has_In.
    - split; [discriminate | intros []]. }
  rewrite <- S. split.
  - intro H. exists u. split; [reflexivity | now apply subscribersOf_In].
  - intros [x [E H]]. apply newPost_inj in E. subst x.
    now apply subscribersOf_In.
Qed.

Lemma listing_matches_fan_out_witness :
  inherited "carol" = false
  /\ post_stored (all_stored 2000) = EsOk
  /\ get_subscriptions after_p1 "carol" = [sports]
  /\ (In (topic p2) (get_subscriptions after_p1 "carol")
      <-> In (newPost "carol" (notification_of p2 (clock (all_stored 2000))))
            (emitted (snd (post_posts after_p1 p2 (all_stored 2000))))).
Proof.
  split; [reflexivity|]. split; [reflexivity|]. split; [reflexivity|].
  exact (listing_matches_fan_out after_p1 "carol" p2 (all_stored 2000)
           eq_refl eq_refl).
Defined.

(** X15.  Topics are listed in the order they were first subscribed to: a
    [subscribeToTopic] from a socket registered as k (no property name of
    [Object.prototype]) leaves the listing of k as it is when the topic is
    already there and puts the topic last otherwise; a POST /unsubscribe
    takes exactly that topic out and keeps the order of the rest; the
    listing of every other user is untouched by both. *)
Theorem listing_after_subscribe_and_unsubscribe
  (st : State) (sid : string) (s : Socket.t) (k : string) (t : jsval) :
  find_socket (sockets st) sid = Some s ->
  Socket.username s = JString k ->
  k <> "" ->
  inherited k = false ->
  truthy t = true ->
  get_subscriptions (fst (step st (SubscribeToTopic sid t))) k
  = (if set_has (get_subscriptions st k) t then get_subscriptions st k
     else get_subscriptions st k ++ [t])
  /\ get_subscriptions (fst (step st (PostUnsubscribe (JString k) t))) k
     = filter (fun x => negb (same_value_zero t x)) (get_subscriptions st k)
  /\ forall v, v <> k ->
       get_subscriptions (fst (step st (SubscribeToTopic sid t))) v
       = get_subscriptions st v
       /\ get_subscriptions (fst (step st (PostUnsubscribe (JString k) t))) v
          = get_subscriptions st v.
Proof.
  intros F U Hk I Ht.
  assert (T : truthy (Socket.username s) = true).
  { rewrite U. simpl. apply negb_true_iff. now apply String.eqb_neq. }
  assert (Tk : truthy (JString k) = true) by now rewrite <- U.
  assert (Rs : userSubscriptions (fst (step st (SubscribeToTopic sid t)))
               = match own_get (userSubscriptions st) k with
                 | Some set => own_put (userSubscriptions st) k (set_add set t)
                 | None => own_put (userSubscriptions st) k [t]
                 end).
  { cbn [step]. unfold on_socket. rewrite F, subscribeToTopic_registry, T, U.
    cbn [to_string]. now rewrite I. }
  assert (Ru : userSubscriptions (fst (step st (PostUnsubscribe (JString k) t)))
               = match own_get (userSubscriptions st) k with
                 | Some set =>
                     own_put (userSubscriptions st) k (set_delete set t)
                 | None => userSubscriptions st
                 end).
  { cbn [step]. rewrite post_unsubscribe_registry, Tk, Ht. reflexivity. }
  split; [|split].
  - rewrite !(get_subscriptions_own _ _ I), Rs.
    destruct (own_get (userSubscriptions st) k) as [set|] eqn:G;
      now rewrite own_get_put_same.
  - rewrite !(get_subscriptions_own _ _ I), Ru.
    destruct (own_get (userSubscriptions st) k) as [set|] eqn:G.
    + now rewrite own_get_put_same.
    + now rewrite G.
  - intros v N. split; apply get_subscriptions_same.
    + rewrite Rs. destruct (own_get (userSubscriptions st) k);
        now apply own_get_put_other.
    + rewrite Ru. destruct (own_get (userSubscriptions st) k);
        [now apply own_get_put_other | reflexivity].
Qed.

Lemma listing_after_subscribe_and_unsubscribe_witness :
  find_socket (sockets after_p1) "s1" = Some alice_socket
  /\ Socket.username alice_socket = JString "alice"
  /\ "alice" <> ""
  /\ inherited "alice" = false
  /\ truthy (JString "chess") = true
  /\ get_subscriptions after_p1 "alice" = [sports]
  /\ get_subscriptions
       (fst (step after_p1 (SubscribeToTopic "s1" (JString "chess")))) "alice"
     = [sports; JString "chess"]
  /\ get_subscriptions
       (fst (step after_p1 (PostUnsubscribe (JString "alice") (JString "chess"))))
       "alice"
     = [sports].
Proof.
  assert (N : "alice" <> "") by discriminate.
  destruct (listing_after_subscribe_and_unsubscribe after_p1 "s1" alice_socket
              "alice" (JString "chess") eq_refl eq_refl N eq_refl eq_refl)
    as [A [B _]].
  split; [reflexivity|]. split; [reflexivity|]. split; [exact N|].
  split; [reflexivity|]. split; [reflexivity|]. split; [reflexivity|].
  split; [rewrite A | rewrite B]; reflexivity.
Defined.

(** X16.  A name of [Object.prototype] ("constructor", "toString", ...)
    is never a user of the registry.  In every state reached from the initial
    one, a socket registered under such a name makes [subscribeToTopic] end
    with an exception nobody catches and leaves the registry as it was; a
    POST /unsubscribe for that name is answered with status 500 and changes
    nothing; and what GET /subscriptions lists for it holds no topic, only
    [undefined] entries. *)
Theorem prototype_names_are_never_subscribed
  (evs : list event) (sid : string) (s : Socket.t) (k : string) (t : jsval) :
  find_socket (sockets (run initial evs)) sid = Some s ->
  Socket.username s = JString k ->
  inherited k = true ->
  snd (step (run initial evs) (SubscribeToTopic sid t))
  = uncaught "userSubscriptions[socket.username].add is not a function"
  /\ userSubscriptions (fst (step (run initial evs) (SubscribeToTopic sid t)))
     = userSubscriptions (run initial evs)
  /\ (forall x, subscribed (userSubscriptions (run initial evs)) k x = false)
  /\ (truthy t = true ->
      post_unsubscribe (run initial evs) (JString k) t
      = (run initial evs,
         respond 500
           (ErrorPage "userSubscriptions[username].delete is not a function")))
  /\ Forall (eq JUndefined) (get_subscriptions (run initial evs) k).
Proof.
  intros F U I.
  pose proof (run_registry_ok evs initial initial_registry_ok) as K.
  pose proof (registry_ok_inherited _ _ K I) as G.
  pose proof (inherited_truthy _ I) as T.
  assert (GP : get_prop (userSubscriptions (run initial evs)) k = PInherited)
    by (unfold get_prop; now rewrite G, I).
  cbn [step]. unfold on_socket. rewrite F.
  split; [|split; [|split; [|split]]].
  - rewrite subscribeToTopic_output, U, T. cbn [to_string]. now rewrite G, I.
  - rewrite subscribeToTopic_registry, U, T. cbn [to_string]. now rewrite G, I.
  - intro x. now apply subscribed_none.
  - intro Ht. unfold post_unsubscribe. rewrite T, Ht. cbn [negb orb to_string].
    now rewrite GP.
  - unfold get_subscriptions. rewrite GP. cbn [prop_truthy array_from].
    apply Forall_forall. intros x Hx. symmetry.
    now apply (repeat_spec _ _ _ Hx).
Qed.

Lemma prototype_names_are_never_subscribed_witness :
  find_socket (sockets (run initial constructor_registered)) "s9"
  = Some constructor_socket
  /\ Socket.username constructor_socket = JString "constructor"
  /\ inherited "constructor" = true
  /\ snd (step (run initial constructor_registered)
            (SubscribeToTopic "s9" sports))
     = uncaught "userSubscriptions[socket.username].add is not a function"
  /\ userSubscriptions
       (fst (step (run initial constructor_registered)
               (SubscribeToTopic "s9" sports)))
     = []
  /\ truthy sports = true
  /\ post_unsubscribe (run initial constructor_registered)
       (JString "constructor") sports
     = (run initial constructor_registered,
        respond 500
          (ErrorPage "userSubscriptions[username].delete is not a function"))
  /\ get_subscriptions (run initial constructor_registered) "constructor"
     = [JUndefined].
Proof.
  destruct (prototype_names_are_never_subscribed constructor_registered "s9"
              constructor_socket "constructor" sports eq_refl eq_refl eq_refl)
    as [O [R [_ [U _]]]].
  split; [reflexivity|]. split; [reflexivity|]. split; [reflexivity|].
  split; [exact O|]. split; [rewrite R; reflexivity|].
  split; [reflexivity|]. split; [exact (U eq_refl) | reflexivity].
Defined.

(** X17.  POST /posts does not look whether the id is already in use:
    publishing a post with a string id a second time replaces the stored
    post, so that the post index is what the second publication alone would
    have left (and, when no file is uploaded, what the first left), and
    notifies every subscriber again. *)
Theorem republishing_notifies_again
  (st : State) (req : PostsRequest) (env1 env2 : PublishEnv) (a : string) :
  id req = JString a ->
  post_stored env1 = EsOk ->
  post_stored env2 = EsOk ->
  In (post_of req env2)
    (es_index7 (fst (post_posts (fst (post_posts st req env1)) req env2)))
  /\ es_index7 (fst (post_posts (fst (post_posts st req env1)) req env2))
     = es_index7 (fst (post_posts st req env2))
  /\ (file req = None ->
      es_index7 (fst (post_posts (fst (post_posts st req env1)) req env2))
      = es_index7 (fst (post_posts st req env1)))
  /\ notifications_index
       (fst (post_posts (fst (post_posts st req env1)) req env2))
     = notifications_index (fst (post_posts st req env1))
         ++ map (fun u => document u (notification_of req (clock env2)))
              (filter (stored_ok (notification_stored env2))
                 (subscribersOf (userSubscriptions st) (topic req)))
  /\ emitted (snd (post_posts (fst (post_posts st req env1)) req env2))
     = map (fun u => newPost u (notification_of req (clock env2)))
         (subscribersOf (userSubscriptions st) (topic req)).
Proof.
  intros I P1 P2.
  rewrite (post_posts_stored _ _ _ P2), (post_posts_stored _ _ _ P1).
  rewrite (post_posts_stored _ _ _ P2).
  cbn [fst snd es_index7 notifications_index userSubscriptions emitted].
  split; [apply index_post_In|]. split; [|split; [|split; reflexivity]].
  - now apply (index_post_replace _ _ _ a).
  - intro F. unfold post_of. rewrite F. cbn [option_map].
    now apply (index_post_again _ _ a).
Qed.

Lemma republishing_notifies_again_witness :
  id p2 = JString "p2"
  /\ post_stored (all_stored 1000) = EsOk
  /\ post_stored (all_stored 2000) = EsOk
  /\ map Post.image
       (es_index7 (fst (post_posts three_subscribers p2 (all_stored 1000))))
     = [Some "http://localhost:5000/uploads/1000-pitch.png"]
  /\ map Post.image
       (es_index7
          (fst (post_posts
                  (fst (post_posts three_subscribers p2 (all_stored 1000)))
                  p2 (all_stored 2000))))
     = [Some "http://localhost:5000/uploads/2000-pitch.png"]
  /\ map Doc.timestamp
       (log_of
          (fst (post_posts
                  (fst (post_posts three_subscribers p2 (all_stored 1000)))
                  p2 (all_stored 2000))) "alice")
     = [1000%Z; 2000%Z].
Proof.
  destruct (republishing_notifies_again three_subscribers p2
              (all_stored 1000) (all_stored 2000) "p2"
              eq_refl eq_refl eq_refl) as [_ [E [_ [N _]]]].
  split; [reflexivity|]. split; [reflexivity|]. split; [reflexivity|].
  split; [reflexivity|]. split.
  - rewrite E. reflexivity.
  - unfold log_of. rewrite N. reflexivity.
Defined.

(** X18.  Clearing does not unsubscribe.  In a state reached from the
    initial one, a clear for u leaves the registry as it is; when the engine
    finds the name u under the term u, a stored POST /posts on a topic u is
    subscribed to, with the write accepted, leaves after the clear exactly
    one document filed under u, the notification of that post. *)
Theorem clear_does_not_unsubscribe
  (evs : list event) (req : PostsRequest) (env : PublishEnv) (u : string)
  (az : analyzer) :
  subscribed (userSubscriptions (run initial evs)) u (topic req) = true ->
  post_stored env = EsOk ->
  notification_stored env u = EsOk ->
  In u (az u) ->
  userSubscriptions (fst (clear_notifications (run initial evs) u az EsOk))
  = userSubscriptions (run initial evs)
  /\ exists d,
       log_of
         (fst (post_posts
                 (fst (clear_notifications (run initial evs) u az EsOk))
                 req env)) u
       = [d]
       /\ Doc.username d = u
       /\ Doc.postId d = id req
       /\ Doc.message d = message_of req.
Proof.
  intros S P O H.
  destruct (run_registry_ok evs initial initial_registry_ok) as [N _].
  split; [reflexivity|].
  exists (document u (notification_of req (clock env))).
  split; [|repeat split].
  pose proof (log_of_published
                (fst (clear_notifications (run initial evs) u az EsOk))
                req env u N P) as E.
  cbn [clear_notifications fst userSubscriptions with_notifications] in E.
  unfold stored_ok in E. rewrite S, O in E. cbn [andb] in E.
  cbn [clear_notifications fst]. rewrite E. unfold log_of.
  cbn [notifications_index with_notifications].
  now rewrite filed_after_delete.
Qed.

Lemma clear_does_not_unsubscribe_witness :
  subscribed (userSubscriptions (run initial history)) "alice" (topic p2) = true
  /\ post_stored (all_stored 2000) = EsOk
  /\ notification_stored (all_stored 2000) "alice" = EsOk
  /\ In "alice" (standard "alice")
  /\ userSubscriptions
       (fst (clear_notifications (run initial history) "alice" standard EsOk))
     = userSubscriptions (run initial history)
  /\ exists d,
       log_of
         (fst (post_posts
                 (fst (clear_notifications (run initial history) "alice"
                         standard EsOk))
                 p2 (all_stored 2000))) "alice"
       = [d]
       /\ Doc.username d = "alice"
       /\ Doc.postId d = id p2
       /\ Doc.message d = message_of p2.
Proof.
  assert (H : In "alice" (standard "alice")) by (left; reflexivity).
  split; [reflexivity|]. split; [reflexivity|]. split; [reflexivity|].
  split; [exact H|].
  exact (clear_does_not_unsubscribe history p2 (all_stored 2000) "alice"
           standard eq_refl eq_refl eq_refl H).
Defined.

(** X19.  Among the socket events and requests whose payloads are strings
    or missing, the only way a handler ends with an exception nobody catches
    is a [subscribeToTopic] or [unsubscribeFromTopic] from a socket
    registered under a property name of [Object.prototype] that is no key
    of the registry; with such payloads no route and no other socket event
    ends that way. *)
Theorem only_prototype_names_throw (st : State) (e : event) (msg : string) :
  ended (snd (step st e)) = Uncaught msg ->
  exists sid s t,
    (e = SubscribeToTopic sid t \/ e = UnsubscribeFromTopic sid t)
    /\ find_socket (sockets st) sid = Some s
    /\ truthy (Socket.username s) = true
    /\ own_get (userSubscriptions st) (to_string (Socket.username s)) = None
    /\ inherited (to_string (Socket.username s)) = true.
Proof.
  destruct e as [sid|sid w|sid t|sid t|sid|req env|w az o|w az o|w t|w t];
    cbn [step]; intro H.
  - unfold connection in H.
    destruct (find_socket (sockets st) sid); discriminate.
  - unfold on_socket in H.
    destruct (find_socket (sockets st) sid); discriminate.
  - unfold on_socket in H.
    destruct (find_socket (sockets st) sid) as [s|] eqn:F; [|discriminate].
    rewrite subscribeToTopic_output in H.
    destruct (truthy (Socket.username s)) eqn:T; [|discriminate].
    destruct (own_get (userSubscriptions st) (to_string (Socket.username s)))
      eqn:G; [discriminate|].
    destruct (inherited (to_string (Socket.username s))) eqn:I;
      [|discriminate].
    exists sid, s, t. auto.
  - unfold on_socket in H.
    destruct (find_socket (sockets st) sid) as [s|] eqn:F; [|discriminate].
    rewrite unsubscribeFromTopic_output in H.
    destruct (truthy (Socket.username s)) eqn:T; [|discriminate].
    destruct (own_get (userSubscriptions st) (to_string (Socket.username s)))
      eqn:G; [discriminate|].
    destruct (inherited (to_string (Socket.username s))) eqn:I;
      [|discriminate].
    exists sid, s, t. auto.
  - unfold on_socket in H.
    destruct (find_socket (sockets st) sid); discriminate.
  - rewrite post_posts_ended in H. discriminate.
  - destruct o; discriminate.
  - destruct o; discriminate.
  - unfold post_subscribe in H.
    destruct (negb (truthy w) || negb (truthy t)); discriminate.
  - unfold post_unsubscribe in H.
    destruct (negb (truthy w) || negb (truthy t)); [discriminate|].
    destruct (get_prop (userSubscriptions st) (to_string w)); discriminate.
Qed.

Lemma only_prototype_names_throw_witness :
  ended (snd (step (run initial constructor_registered)
                (UnsubscribeFromTopic "s9" sports)))
  = Uncaught "userSubscriptions[socket.username].delete is not a function"
  /\ exists sid s t,
       (UnsubscribeFromTopic "s9" sports = SubscribeToTopic sid t
        \/ UnsubscribeFromTopic "s9" sports = UnsubscribeFromTopic sid t)
       /\ find_socket (sockets (run initial constructor_registered)) sid
          = Some s
       /\ truthy (Socket.username s) = true
       /\ own_get (userSubscriptions (run initial constructor_registered))
            (to_string (Socket.username s)) = None
       /\ inherited (to_string (Socket.username s)) = true.
Proof.
  split; [reflexivity|].
  exact (only_prototype_names_throw (run initial constructor_registered)
           (UnsubscribeFromTopic "s9" sports) _ eq_refl).
Defined.

(** X20.  When the engine has indexed [username] as a keyword, the mapping
    lines 86-97 write down, a POST /posts leaves the listing of a user who
    holds no subscription to the topic as it was; whatever the engine, it
    files no document under that user. *)
Theorem keyword_listing_spares_non_subscribers
  (st : State) (req : PostsRequest) (env : PublishEnv) (u : string)
  (az : analyzer) :
  (forall s, az s = [s]) ->
  subscribed (userSubscriptions st) u (topic req) = false ->
  log_of (fst (post_posts st req env)) u = log_of st u
  /\ listFor az (fst (post_posts st req env)) u = listFor az st u
  /\ snd (get_notifications (fst (post_posts st req env)) u az EsOk)
     = snd (get_notifications st u az EsOk).
Proof.
  intros K H. pose proof (log_of_unsubscribed st req env u H) as L.
  assert (S : listFor az (fst (post_posts st req env)) u = listFor az st u).
  { unfold listFor, search_username. rewrite !(filter_keyword az u _ K).
    unfold log_of in L. now rewrite L. }
  split; [exact L|]. split; [exact S|].
  unfold get_notifications. cbn [snd]. unfold listFor in S. now rewrite S.
Qed.

Lemma keyword_listing_spares_non_subscribers_witness :
  (forall s, keyword s = [s])
  /\ subscribed (userSubscriptions three_subscribers) "dave" (topic p1) = false
  /\ log_of (fst (post_posts three_subscribers p1 (all_stored 1000))) "dave"
     = log_of three_subscribers "dave"
  /\ listFor keyword (fst (post_posts three_subscribers p1 (all_stored 1000)))
       "dave"
     = listFor keyword three_subscribers "dave"
  /\ snd (get_notifications
            (fst (post_posts three_subscribers p1 (all_stored 1000)))
            "dave" keyword EsOk)
     = snd (get_notifications three_subscribers "dave" keyword EsOk).
Proof.
  assert (K : forall s, keyword s = [s]) by reflexivity.
  split; [exact K|]. split; [reflexivity|].
  exact (keyword_listing_spares_non_subscribers three_subscribers p1
           (all_stored 1000) "dave" keyword K eq_refl).
Defined.

(** X21.  After a successful clear for u the query of
    GET /notifications/u has no hit, whatever the engine.  When the engine
    has indexed [username] as a keyword, the clear takes exactly the
    documents filed under u: none is left under u, and the documents and
    the listing of every other user are as they were. *)
Theorem keyword_clear_is_exhaustive_and_scoped
  (st : State) (u : string) (az : analyzer) :
  listFor az (fst (clear_notifications st u az EsOk)) u = []
  /\ ((forall s, az s = [s]) ->
      log_of (fst (clear_notifications st u az EsOk)) u = []
      /\ forall v, v <> u ->
           log_of (fst (clear_notifications st u az EsOk)) v = log_of st v
           /\ listFor az (fst (clear_notifications st u az EsOk)) v
              = listFor az st v).
Proof.
  unfold listFor, log_of, search_username.
  cbn [clear_notifications fst notifications_index with_notifications].
  split; [now rewrite search_after_delete|].
  intro K. split.
  - apply filed_after_delete. rewrite K. now left.
  - intros v N. rewrite !(filter_keyword az v _ K), (delete_keyword az _ u K).
    now rewrite (filed_other_after_delete _ u v N).
Qed.

Lemma keyword_clear_is_exhaustive_and_scoped_witness :
  (forall s, keyword s = [s])
  /\ listFor keyword after_p1 "alice" <> []
  /\ listFor keyword (fst (clear_notifications after_p1 "alice" keyword EsOk))
       "alice"
     = []
  /\ "carol" <> "alice"
  /\ log_of (fst (clear_notifications after_p1 "alice" keyword EsOk)) "carol"
     = log_of after_p1 "carol"
  /\ log_of after_p1 "carol" <> [].
Proof.
  assert (K : forall s, keyword s = [s]) by reflexivity.
  destruct (keyword_clear_is_exhaustive_and_scoped after_p1 "alice" keyword)
    as [E O].
  assert (N : "carol" <> "alice") by discriminate.
  destruct (O K) as [_ V]. destruct (V "carol" N) as [L _].
  split; [exact K|]. split; [discriminate|]. split; [exact E|].
  split; [exact N|]. split; [exact L | discriminate].
Defined.

End Extras.
